(** * The tutoring page controller of [static/script.js]

    A shallow embedding of the script that drives the lesson / quiz page:
    the four page sections, the session variables, the click handlers,
    the delayed advance to the next question and the result computation.

    The page ([State]) holds what the script reads and writes: the
    [hidden] class of the elements it toggles, the form values, the
    rendered contents and the four [let] variables.  A handler is a
    computation over that page which may emit effects (alerts, requests,
    timers) and may throw.  The browser's event loop ([World], [fire])
    delivers clicks, timer expirations and settled requests to them. *)

From Stdlib Require Import ZArith List String Ascii Bool Lia.
From Stdlib Require Import DecimalString.
From Stdlib Require Import Floats.SpecFloat.
Import ListNotations.

Local Open Scope string_scope.
Local Open Scope Z_scope.

(** ** Data *)

(** One entry of [data.questions]. *)
Record Question := mkQuestion {
  question : string;
  options : list string;
  answer : string;
  explanation : string
}.

(** The object literal [{ subject, topic, level }]. *)
Record Selections := mkSelections {
  subject : string;
  topic : string;
  level : string
}.

(** The two properties the script reads off a parsed response body.
    [None] is an absent property ([undefined]).  A property that is
    present has the type the backend gives it: [lesson_html] a string,
    [questions] an array of question objects. *)
Record Payload := mkPayload {
  lesson_html : option string;
  questions : option (list Question)
}.

(** What becomes of one [fetch]: the promise rejects, or a response with
    a status arrives whose body parses as JSON or does not.  A parsed
    body is an object ([Some]) or a falsy value such as [null]
    ([None]). *)
Inductive Body :=
| Malformed
| Parsed (data : option Payload).

Inductive Response :=
| NetworkError
| HttpResponse (status : Z) (body : Body).

(** [response.ok] *)
Definition ok (status : Z) : bool := (200 <=? status) && (status <=? 299).

(** The elements whose class list the script edits. *)
Inductive Element :=
| setupSection | lessonSection | quizSection | resultSection
| loadingSpinner | startQuizBtn | submitAnswerBtn.

(** The page and the script's variables.  [userSelections] starts as the
    empty object, written [None]. *)
Record State := mkState {
  setupSection_hidden : bool;
  lessonSection_hidden : bool;
  quizSection_hidden : bool;
  resultSection_hidden : bool;
  loadingSpinner_hidden : bool;
  startQuizBtn_hidden : bool;
  submitAnswerBtn_hidden : bool;
  subjectEl_value : string;
  topicEl_value : string;
  levelEl_value : string;
  lessonTitleEl_textContent : string;
  lessonContentEl_innerHTML : string;
  quizContentEl_innerHTML : string;
  feedbackSectionEl_innerHTML : string;
  resultTextEl_innerHTML : string;
  quizData : option (list Question);
  currentQuestionIndex : Z;
  score : Z;
  userSelections : option Selections
}.

Definition hidden (e : Element) (s : State) : bool :=
  match e with
  | setupSection => setupSection_hidden s
  | lessonSection => lessonSection_hidden s
  | quizSection => quizSection_hidden s
  | resultSection => resultSection_hidden s
  | loadingSpinner => loadingSpinner_hidden s
  | startQuizBtn => startQuizBtn_hidden s
  | submitAnswerBtn => submitAnswerBtn_hidden s
  end.

Definition set_hidden (e : Element) (b : bool) (s : State) : State :=
  let (h1, h2, h3, h4, h5, h6, h7, v1, v2, v3, c1, c2, c3, c4, c5, q, i, sc, u) := s in
  match e with
  | setupSection => mkState b h2 h3 h4 h5 h6 h7 v1 v2 v3 c1 c2 c3 c4 c5 q i sc u
  | lessonSection => mkState h1 b h3 h4 h5 h6 h7 v1 v2 v3 c1 c2 c3 c4 c5 q i sc u
  | quizSection => mkState h1 h2 b h4 h5 h6 h7 v1 v2 v3 c1 c2 c3 c4 c5 q i sc u
  | resultSection => mkState h1 h2 h3 b h5 h6 h7 v1 v2 v3 c1 c2 c3 c4 c5 q i sc u
  | loadingSpinner => mkState h1 h2 h3 h4 b h6 h7 v1 v2 v3 c1 c2 c3 c4 c5 q i sc u
  | startQuizBtn => mkState h1 h2 h3 h4 h5 b h7 v1 v2 v3 c1 c2 c3 c4 c5 q i sc u
  | submitAnswerBtn => mkState h1 h2 h3 h4 h5 h6 b v1 v2 v3 c1 c2 c3 c4 c5 q i sc u
  end.

Definition set_subjectEl_value (v : string) (s : State) : State :=
  let (h1, h2, h3, h4, h5, h6, h7, _, v2, v3, c1, c2, c3, c4, c5, q, i, sc, u) := s in
  mkState h1 h2 h3 h4 h5 h6 h7 v v2 v3 c1 c2 c3 c4 c5 q i sc u.

Definition set_topicEl_value (v : string) (s : State) : State :=
  let (h1, h2, h3, h4, h5, h6, h7, v1, _, v3, c1, c2, c3, c4, c5, q, i, sc, u) := s in
  mkState h1 h2 h3 h4 h5 h6 h7 v1 v v3 c1 c2 c3 c4 c5 q i sc u.

Definition set_levelEl_value (v : string) (s : State) : State :=
  let (h1, h2, h3, h4, h5, h6, h7, v1, v2, _, c1, c2, c3, c4, c5, q, i, sc, u) := s in
  mkState h1 h2 h3 h4 h5 h6 h7 v1 v2 v c1 c2 c3 c4 c5 q i sc u.

Definition set_lessonTitleEl_textContent (v : string) (s : State) : State :=
  let (h1, h2, h3, h4, h5, h6, h7, v1, v2, v3, _, c2, c3, c4, c5, q, i, sc, u) := s in
  mkState h1 h2 h3 h4 h5 h6 h7 v1 v2 v3 v c2 c3 c4 c5 q i sc u.

Definition set_lessonContentEl_innerHTML (v : string) (s : State) : State :=
  let (h1, h2, h3, h4, h5, h6, h7, v1, v2, v3, c1, _, c3, c4, c5, q, i, sc, u) := s in
  mkState h1 h2 h3 h4 h5 h6 h7 v1 v2 v3 c1 v c3 c4 c5 q i sc u.

Definition set_quizContentEl_innerHTML (v : string) (s : State) : State :=
  let (h1, h2, h3, h4, h5, h6, h7, v1, v2, v3, c1, c2, _, c4, c5, q, i, sc, u) := s in
  mkState h1 h2 h3 h4 h5 h6 h7 v1 v2 v3 c1 c2 v c4 c5 q i sc u.

Definition set_feedbackSectionEl_innerHTML (v : string) (s : State) : State :=
  let (h1, h2, h3, h4, h5, h6, h7, v1, v2, v3, c1, c2, c3, _, c5, q, i, sc, u) := s in
  mkState h1 h2 h3 h4 h5 h6 h7 v1 v2 v3 c1 c2 c3 v c5 q i sc u.

Definition set_resultTextEl_innerHTML (v : string) (s : State) : State :=
  let (h1, h2, h3, h4, h5, h6, h7, v1, v2, v3, c1, c2, c3, c4, _, q, i, sc, u) := s in
  mkState h1 h2 h3 h4 h5 h6 h7 v1 v2 v3 c1 c2 c3 c4 v q i sc u.

Definition set_quizData (v : option (list Question)) (s : State) : State :=
  let (h1, h2, h3, h4, h5, h6, h7, v1, v2, v3, c1, c2, c3, c4, c5, _, i, sc, u) := s in
  mkState h1 h2 h3 h4 h5 h6 h7 v1 v2 v3 c1 c2 c3 c4 c5 v i sc u.

Definition set_currentQuestionIndex (v : Z) (s : State) : State :=
  let (h1, h2, h3, h4, h5, h6, h7, v1, v2, v3, c1, c2, c3, c4, c5, q, _, sc, u) := s in
  mkState h1 h2 h3 h4 h5 h6 h7 v1 v2 v3 c1 c2 c3 c4 c5 q v sc u.

Definition set_score (v : Z) (s : State) : State :=
  let (h1, h2, h3, h4, h5, h6, h7, v1, v2, v3, c1, c2, c3, c4, c5, q, i, _, u) := s in
  mkState h1 h2 h3 h4 h5 h6 h7 v1 v2 v3 c1 c2 c3 c4 c5 q i v u.

Definition set_userSelections (v : option Selections) (s : State) : State :=
  let (h1, h2, h3, h4, h5, h6, h7, v1, v2, v3, c1, c2, c3, c4, c5, q, i, sc, _) := s in
  mkState h1 h2 h3 h4 h5 h6 h7 v1 v2 v3 c1 c2 c3 c4 c5 q i sc v.

(** ** Effects and the handler monad *)

(** Where an [await fetchAPI(...)] resumes: in the lesson handler, which
    has captured its local [topic], or in the quiz handler. *)
Inductive Continuation :=
| AfterLesson (topic : string)
| AfterQuiz.

Inductive Effect :=
| Alert (msg : string)
| ConsoleError (msg : string)
| Fetch (endpoint : string) (body : option Selections) (k : Continuation)
| SetTimeout (delay : Z)
| Uncaught.

(** A handler body either runs to its end or throws.  The only
    exception the script can raise by itself is the [TypeError] of a
    property read on [null] or [undefined]. *)
Inductive Completion (A : Type) :=
| Normal (a : A)
| TypeError.
Arguments Normal {A} a.
Arguments TypeError {A}.

Record Outcome (A : Type) := mkOutcome {
  final : State;
  effects : list Effect;
  completion : Completion A
}.
Arguments mkOutcome {A}.
Arguments final {A}.
Arguments effects {A}.
Arguments completion {A}.

Definition M (A : Type) : Type := State -> Outcome A.

Definition ret {A} (a : A) : M A := fun s => mkOutcome s [] (Normal a).

Definition bind {A B} (m : M A) (f : A -> M B) : M B := fun s =>
  let o := m s in
  match completion o with
  | Normal a =>
      let o' := f a (final o) in
      mkOutcome (final o') (effects o ++ effects o')%list (completion o')
  | TypeError => mkOutcome (final o) (effects o) TypeError
  end.

Definition throw {A} : M A := fun s => mkOutcome s [] TypeError.
Definition emit (e : Effect) : M unit := fun s => mkOutcome s [e] (Normal tt).
Definition read {A} (f : State -> A) : M A := fun s => mkOutcome s [] (Normal (f s)).
Definition write (f : State -> State) : M unit := fun s => mkOutcome (f s) [] (Normal tt).

Declare Scope js_scope.
Delimit Scope js_scope with js.
Notation "x <- m ;; k" := (bind m (fun x => k))
  (at level 61, m at next level, right associativity) : js_scope.
Notation "m ;; k" := (bind m (fun _ => k))
  (at level 61, right associativity) : js_scope.
Local Open Scope js_scope.

(** [el.classList.add('hidden')], [.remove('hidden')] and
    [.toggle('hidden', force)]. *)
Definition classList_add (e : Element) : M unit := write (set_hidden e true).
Definition classList_remove (e : Element) : M unit := write (set_hidden e false).
Definition classList_toggle (e : Element) (force : bool) : M unit := write (set_hidden e force).

Definition alert (msg : string) : M unit := emit (Alert msg).

(** ** Text *)

Definition dq : string := String (ascii_of_nat 34) EmptyString.
Definition nl : string := String (ascii_of_nat 10) EmptyString.

Fixpoint spaces (n : nat) : string :=
  match n with
  | O => EmptyString
  | S n' => String " "%char (spaces n')
  end.

(** An integer inside a template literal. *)
Definition show_Z (z : Z) : string := NilZero.string_of_int (Z.to_int z).

(** Truthiness of a string: only the empty string is falsy. *)
Definition truthy (s : string) : bool := negb (String.eqb s "").

(** ** Numbers

    The counters are JavaScript numbers holding integers; below 2^53
    their arithmetic is that of [Z].  The percentage is a genuine
    double: it is computed with the IEEE 754 binary64 operations of
    [SpecFloat]. *)

Definition prec : Z := 53.
Definition emax : Z := 1024.

Definition Number_of_Z (z : Z) : spec_float := binary_normalize prec emax z 0 false.

(** [(score / quizData.length) * 100] *)
Definition percentage_value (sc n : Z) : spec_float :=
  SFmul prec emax (SFdiv prec emax (Number_of_Z sc) (Number_of_Z n)) (Number_of_Z 100).

(** The result of [x.toFixed(1)].  For a finite [x] below 10^21 it is
    the decimal with one fractional digit nearest to the exact value of
    [x], the larger one on a tie; [tenths] is that decimal times ten. *)
Inductive Fixed :=
| FixedNaN
| FixedInfinity (negative : bool)
| FixedDecimal (negative : bool) (tenths : Z)
| FixedExponential (x : spec_float).

Definition nearest_tenths (m : positive) (e : Z) : Z :=
  match e with
  | Zneg p => (20 * Zpos m + 2 ^ Zpos p) / 2 ^ (Zpos p + 1)
  | _ => 10 * Zpos m * 2 ^ e
  end.

Definition toFixed1 (x : spec_float) : Fixed :=
  match x with
  | S754_nan => FixedNaN
  | S754_infinity sg => FixedInfinity sg
  | S754_zero _ => FixedDecimal false 0
  | S754_finite sg m e =>
      if 10 ^ 22 <=? nearest_tenths m e
      then FixedExponential x
      else FixedDecimal sg (nearest_tenths m e)
  end.

(** [percentage >= bound] for an integer [bound]: the string is
    converted back to a number and compared.  The conversion rounds the
    decimal [tenths / 10] to the nearest double; that rounding is
    monotone and leaves the integer [bound] fixed, so the comparison is
    the one of the decimal itself. *)
Definition Fixed_ge (p : Fixed) (bound : Z) : bool :=
  match p with
  | FixedNaN => false
  | FixedInfinity negative => negb negative
  | FixedDecimal negative tenths =>
      if negative then (10 * bound <=? - tenths) else (10 * bound <=? tenths)
  | FixedExponential x => SFleb (Number_of_Z bound) x
  end.

Section Controller.

(** The [marked] library, and the host's printing of numbers of
    magnitude 10^21 and more, which [toFixed] falls back to. *)
Variable marked_parse : string -> string.
Variable Number_toString : spec_float -> string.

Definition Fixed_toString (p : Fixed) : string :=
  match p with
  | FixedNaN => "NaN"
  | FixedInfinity negative => if negative then "-Infinity" else "Infinity"
  | FixedDecimal negative tenths =>
      (if negative then "-" else "") ++ show_Z (tenths / 10) ++ "." ++ show_Z (tenths mod 10)
  | FixedExponential x => Number_toString x
  end.

(** ** Functions of the script *)

Definition toggleLoading (isLoading : bool) : M unit :=
  classList_toggle loadingSpinner (negb isLoading).

Definition resetUI : M unit :=
  classList_remove setupSection ;;
  classList_add lessonSection ;;
  classList_add quizSection ;;
  classList_add resultSection ;;
  classList_add startQuizBtn ;;
  write (set_feedbackSectionEl_innerHTML "") ;;
  write (set_topicEl_value "") ;;
  write (set_quizData None) ;;
  write (set_currentQuestionIndex 0) ;;
  write (set_score 0).

(** [fetchAPI] up to its first [await]: the spinner is shown and the
    request leaves; [k] is where the caller waits for the result. *)
Definition fetchAPI_call (endpoint : string) (body : option Selections)
    (k : Continuation) : M unit :=
  toggleLoading true ;;
  emit (Fetch endpoint body k).

(** [fetchAPI] from the settled request to its [return]: the [catch]
    branch logs, alerts and yields [null]; [finally] hides the spinner
    on every path. *)
Definition fetchAPI_return (endpoint : string) (r : Response) : M (option Payload) :=
  let failed : M (option Payload) :=
    emit (ConsoleError ("Error fetching from " ++ endpoint ++ ":")) ;;
    alert "An error occurred. Please check the console and try again." ;;
    toggleLoading false ;;
    ret None in
  match r with
  | NetworkError => failed
  | HttpResponse status body =>
      if negb (ok status) then failed
      else match body with
           | Malformed => failed
           | Parsed data => toggleLoading false ;; ret data
           end
  end.

(** [quizData[currentQuestionIndex]] followed by a property read of the
    element: a [TypeError] when [quizData] is [null] and when the index
    is outside the array. *)
Definition current_question : M Question :=
  qs <- read quizData ;;
  i <- read currentQuestionIndex ;;
  match qs with
  | None => throw
  | Some l =>
      if i <? 0 then throw
      else match nth_error l (Z.to_nat i) with
           | None => throw
           | Some q => ret q
           end
  end.

(** [quizData.length] *)
Definition quizData_length : M Z :=
  qs <- read quizData ;;
  match qs with
  | None => throw
  | Some l => ret (Z.of_nat (List.length l))
  end.

Definition option_row (index : nat) (option : string) : string :=
  nl ++ spaces 16 ++ "<div>" ++
  nl ++ spaces 20 ++ "<input type=" ++ dq ++ "radio" ++ dq ++ " id=" ++ dq ++ "option"
     ++ show_Z (Z.of_nat index) ++ dq ++ " name=" ++ dq ++ "quiz_option" ++ dq
     ++ " value=" ++ dq ++ option ++ dq ++ ">" ++
  nl ++ spaces 20 ++ "<label for=" ++ dq ++ "option" ++ show_Z (Z.of_nat index) ++ dq
     ++ " class=" ++ dq ++ "option-label" ++ dq ++ ">" ++ option ++ "</label>" ++
  nl ++ spaces 16 ++ "</div>" ++
  nl ++ spaces 12.

Fixpoint option_rows (index : nat) (opts : list string) : string :=
  match opts with
  | [] => ""
  | o :: rest => option_row index o ++ option_rows (S index) rest
  end.

Definition optionsHTML (q : Question) : string :=
  "<div class=" ++ dq ++ "options-container" ++ dq ++ ">" ++ option_rows 0 (options q) ++ "</div>".

Definition questionHTML (i n : Z) (q : Question) : string :=
  nl ++ spaces 12 ++ "<p><strong>Question " ++ show_Z (i + 1) ++ "/" ++ show_Z n ++ ":</strong></p>" ++
  nl ++ spaces 12 ++ "<p>" ++ question q ++ "</p>" ++
  nl ++ spaces 12 ++ optionsHTML q ++
  nl ++ spaces 8.

Definition displayQuestion : M unit :=
  write (set_feedbackSectionEl_innerHTML "") ;;
  classList_remove submitAnswerBtn ;;
  q <- current_question ;;
  i <- read currentQuestionIndex ;;
  n <- quizData_length ;;
  write (set_quizContentEl_innerHTML (questionHTML i n q)).

Definition excellent_text : string :=
  "<br>Excellent! You have a strong grasp of this topic.".
Definition good_text : string :=
  "<br>Good job! Review the lesson for any tricky points.".
Definition review_text : string :=
  "<br>It's a good start. Let's review the lesson and try again!".

Definition result_summary (sc n : Z) (percentage : Fixed) : string :=
  "You scored " ++ show_Z sc ++ " out of " ++ show_Z n
    ++ " (" ++ Fixed_toString percentage ++ "%).".

Definition tier_text (percentage : Fixed) : string :=
  if Fixed_ge percentage 80 then excellent_text
  else if Fixed_ge percentage 60 then good_text
  else review_text.

Definition showResults : M unit :=
  classList_add quizSection ;;
  classList_remove resultSection ;;
  sc <- read score ;;
  n <- quizData_length ;;
  let percentage := toFixed1 (percentage_value sc n) in
  write (set_resultTextEl_innerHTML (result_summary sc n percentage ++ tier_text percentage)).

(** The callback given to [setTimeout]. *)
Definition advance : M unit :=
  i <- read currentQuestionIndex ;;
  write (set_currentQuestionIndex (i + 1)) ;;
  i' <- read currentQuestionIndex ;;
  n <- quizData_length ;;
  if i' <? n then displayQuestion else showResults.

Definition correct_feedback : string :=
  "<div class=" ++ dq ++ "feedback-correct" ++ dq ++ "><strong>Correct!</strong></div>".

Definition incorrect_feedback (q : Question) : string :=
  "<div class=" ++ dq ++ "feedback-incorrect" ++ dq
    ++ "><strong>Incorrect.</strong> The correct answer is: <strong>" ++ answer q
    ++ "</strong></div>".

Definition explanation_feedback (q : Question) : string :=
  "<p><em>Explanation:</em> " ++ explanation q ++ "</p>".

(** ** Event handlers *)

(** The lesson button, up to the [await]. *)
Definition generateBtn_click : M unit :=
  subject <- read subjectEl_value ;;
  topic <- read topicEl_value ;;
  level <- read levelEl_value ;;
  if negb (truthy topic) then alert "Please enter a topic."
  else
    write (set_userSelections (Some (mkSelections subject topic level))) ;;
    body <- read userSelections ;;
    fetchAPI_call "/generate_lesson" body (AfterLesson topic).

(** The lesson button, after the [await]. *)
Definition generateBtn_resume (topic : string) (r : Response) : M unit :=
  data <- fetchAPI_return "/generate_lesson" r ;;
  match data with
  | Some d =>
      match lesson_html d with
      | Some html =>
          if truthy html then
            write (set_lessonTitleEl_textContent ("Lesson: " ++ topic)) ;;
            write (set_lessonContentEl_innerHTML (marked_parse html)) ;;
            classList_add setupSection ;;
            classList_remove lessonSection ;;
            classList_remove startQuizBtn
          else ret tt
      | None => ret tt
      end
  | None => ret tt
  end.

(** The quiz button, up to the [await]. *)
Definition startQuizBtn_click : M unit :=
  body <- read userSelections ;;
  fetchAPI_call "/generate_quiz" body AfterQuiz.

(** The quiz button, after the [await].  An array is truthy whatever
    its length. *)
Definition startQuizBtn_resume (r : Response) : M unit :=
  data <- fetchAPI_return "/generate_quiz" r ;;
  match data with
  | Some d =>
      match questions d with
      | Some qs =>
          write (set_quizData (Some qs)) ;;
          classList_add lessonSection ;;
          classList_remove quizSection ;;
          displayQuestion
      | None => ret tt
      end
  | None => ret tt
  end.

(** The answer button; [selectedOption] is the value of the checked
    radio input, if one is checked. *)
Definition submitAnswerBtn_click (selectedOption : option string) : M unit :=
  match selectedOption with
  | None => alert "Please select an answer."
  | Some userAnswer =>
      q <- current_question ;;
      feedbackHTML <-
        (if String.eqb userAnswer (answer q)
         then (sc <- read score ;; write (set_score (sc + 1)) ;; ret correct_feedback)
         else ret (incorrect_feedback q)) ;;
      write (set_feedbackSectionEl_innerHTML (feedbackHTML ++ explanation_feedback q)) ;;
      classList_add submitAnswerBtn ;;
      emit (SetTimeout 2500)
  end.

Definition restartBtn_click : M unit := resetUI.

Definition resume (k : Continuation) (r : Response) : M unit :=
  match k with
  | AfterLesson topic => generateBtn_resume topic r
  | AfterQuiz => startQuizBtn_resume r
  end.

End Controller.

(** ** The event loop *)

(** The page together with what the browser holds for it: the number of
    pending [setTimeout] callbacks (all of them are the same closure
    [advance]), the requests in flight with the handler each one
    resumes, and the effects observed so far. *)
Record World := mkWorld {
  page : State;
  timers : nat;
  in_flight : list Continuation;
  log : list Effect
}.

Fixpoint timeouts (es : list Effect) : nat :=
  match es with
  | [] => O
  | SetTimeout _ :: rest => S (timeouts rest)
  | _ :: rest => timeouts rest
  end.

Fixpoint awaited (es : list Effect) : list Continuation :=
  match es with
  | [] => []
  | Fetch _ _ k :: rest => k :: awaited rest
  | _ :: rest => awaited rest
  end.

(** An exception that escapes a handler is reported and the page lives
    on with whatever the handler had written before. *)
Definition observed {A} (o : Outcome A) : list Effect :=
  match completion o with
  | Normal _ => effects o
  | TypeError => (effects o ++ [Uncaught])%list
  end.

Definition deliver (h : M unit) (w : World) : World :=
  let o := h (page w) in
  mkWorld (final o)
          (timers w + timeouts (effects o))%nat
          (in_flight w ++ awaited (effects o))%list
          (log w ++ observed o)%list.

Inductive Event :=
| Edit_subject (v : string)
| Edit_topic (v : string)
| Edit_level (v : string)
| Click_generateBtn
| Click_startQuizBtn
| Click_submitAnswerBtn (checked : option string)
| Click_restartBtn
| Delay_elapses
| Settle (i : nat) (r : Response).

Definition without {A} (i : nat) (l : list A) : list A :=
  (firstn i l ++ skipn (S i) l)%list.

Section Loop.

Variable marked_parse : string -> string.
Variable Number_toString : spec_float -> string.

(** One turn of the loop; [None] when the event cannot occur: a button
    carrying the [hidden] class is not clickable, a timer fires only if
    one is pending, and only a request in flight settles. *)
Definition fire (e : Event) (w : World) : option World :=
  match e with
  | Edit_subject v => Some (deliver (write (set_subjectEl_value v)) w)
  | Edit_topic v => Some (deliver (write (set_topicEl_value v)) w)
  | Edit_level v => Some (deliver (write (set_levelEl_value v)) w)
  | Click_generateBtn => Some (deliver generateBtn_click w)
  | Click_startQuizBtn =>
      if startQuizBtn_hidden (page w) then None
      else Some (deliver startQuizBtn_click w)
  | Click_submitAnswerBtn checked =>
      if submitAnswerBtn_hidden (page w) then None
      else Some (deliver (submitAnswerBtn_click checked) w)
  | Click_restartBtn => Some (deliver restartBtn_click w)
  | Delay_elapses =>
      match timers w with
      | O => None
      | S n =>
          Some (deliver (advance Number_toString)
                        (mkWorld (page w) n (in_flight w) (log w)))
      end
  | Settle i r =>
      match nth_error (in_flight w) i with
      | None => None
      | Some k =>
          Some (deliver (resume marked_parse k r)
                        (mkWorld (page w) (timers w) (without i (in_flight w)) (log w)))
      end
  end.

Fixpoint run (es : list Event) (w : World) : option World :=
  match es with
  | [] => Some w
  | e :: rest =>
      match fire e w with
      | None => None
      | Some w' => run rest w'
      end
  end.

(** The script body: the four [let] declarations, then the closing
    [resetUI()] call, on the document as it was loaded. *)
Definition declarations (document : State) : State :=
  set_userSelections None (set_score 0 (set_currentQuestionIndex 0 (set_quizData None document))).

Definition boot (document : State) : World :=
  deliver resetUI (mkWorld (declarations document) O [] []).

End Loop.

(** ** Screens *)

Inductive Screen := Setup | Lesson | Quiz | Result.

(** The screen shown: the one section that does not carry [hidden]. *)
Definition screen (s : State) : option Screen :=
  match setupSection_hidden s, lessonSection_hidden s,
        quizSection_hidden s, resultSection_hidden s with
  | false, true, true, true => Some Setup
  | true, false, true, true => Some Lesson
  | true, true, false, true => Some Quiz
  | true, true, true, false => Some Result
  | _, _, _, _ => None
  end.

Definition isLoading (s : State) : bool := negb (loadingSpinner_hidden s).

(** ** Sample data *)

(** A document in which nothing is hidden yet and every field is empty. *)
Definition bare_document : State :=
  mkState false false false false true false false
          "" "" "" "" "" "" "" "" None 0 0 None.

Definition q1 : Question := mkQuestion "1/2 + 1/2 = ?" ["1"; "2"] "1" "Two halves make one.".
Definition q2 : Question := mkQuestion "1/4 + 1/4 = ?" ["1/2"; "1/8"] "1/2" "Two quarters make a half.".
Definition q3 : Question := mkQuestion "1/3 + 2/3 = ?" ["3/3"; "1"] "1" "Three thirds make one.".

Definition lesson_ok : Response :=
  HttpResponse 200 (Parsed (Some (mkPayload (Some "# Fractions") None))).
Definition quiz_ok (qs : list Question) : Response :=
  HttpResponse 200 (Parsed (Some (mkPayload None (Some qs)))).

Definition plain (x : string) : string := x.
Definition no_exponent (x : spec_float) : string := "".

Definition to_lesson : list Event :=
  [Edit_subject "Math"; Edit_topic "Fractions"; Edit_level "Beginner";
   Click_generateBtn; Settle 0 lesson_ok].

Definition to_quiz (qs : list Question) : list Event :=
  (to_lesson ++ [Click_startQuizBtn; Settle 0 (quiz_ok qs)])%list.

(** ** Vocabulary of the properties *)

(** The outcomes of a request that make [fetchAPI] take its [catch]
    branch. *)
Definition transport_failed (r : Response) : bool :=
  match r with
  | NetworkError => true
  | HttpResponse status body =>
      negb (ok status) || match body with Malformed => true | Parsed _ => false end
  end.


(** A failed generation: the request failed in transport, or the parsed
    body is [null] or lacks the property the awaiting handler reads. *)
Definition generation_error (k : Continuation) (r : Response) : bool :=
  transport_failed r ||
  match r with
  | HttpResponse _ (Parsed None) => true
  | HttpResponse _ (Parsed (Some d)) =>
      match k with
      | AfterLesson _ => match lesson_html d with None => true | Some _ => false end
      | AfterQuiz => match questions d with None => true | Some _ => false end
      end
  | _ => false
  end.

(** The session data a failed generation must not touch. *)
Definition committed (s : State) : option (list Question) * Z * Z * string * string :=
  (quizData s, currentQuestionIndex s, score s,
   lessonTitleEl_textContent s, lessonContentEl_innerHTML s).

(** The visibility of the four sections. *)
Definition sections (s : State) : bool * bool * bool * bool :=
  (setupSection_hidden s, lessonSection_hidden s, quizSection_hidden s, resultSection_hidden s).

(** The fields [resetUI] assigns. *)
Definition reset_fields (s : State)
  : bool * bool * bool * bool * bool * string * string * option (list Question) * Z * Z :=
  (setupSection_hidden s, lessonSection_hidden s, quizSection_hidden s,
   resultSection_hidden s, startQuizBtn_hidden s,
   feedbackSectionEl_innerHTML s, topicEl_value s,
   quizData s, currentQuestionIndex s, score s).

(** The initial state as the specification lists it. *)
Definition is_initial (s : State) : Prop :=
  screen s = Some Setup /\ isLoading s = false /\ quizData s = None /\
  currentQuestionIndex s = 0 /\ score s = 0 /\ userSelections s = None /\
  topicEl_value s = "".

(** The events of a quiz run: answers and expirations of the delay. *)
Definition quiz_event (e : Event) : Prop :=
  match e with
  | Click_submitAnswerBtn _ | Delay_elapses => True
  | _ => False
  end.

(** A quiz that has just been put on the page, with no advance pending. *)
Definition quiz_started (qs : list Question) (w : World) : Prop :=
  quizData (page w) = Some qs /\
  currentQuestionIndex (page w) = 0 /\
  score (page w) = 0 /\
  submitAnswerBtn_hidden (page w) = false /\
  screen (page w) = Some Quiz /\
  timers w = O.

(** The three phases of a quiz run. *)
Inductive Phase := Answering | Feedback | Finished.

Definition in_phase (qs : list Question) (ph : Phase) (w : World) : Prop :=
  let s := page w in
  let n := Z.of_nat (List.length qs) in
  quizData s = Some qs /\ 0 <= currentQuestionIndex s /\ 0 <= score s /\
  match ph with
  | Answering =>
      submitAnswerBtn_hidden s = false /\ timers w = O /\ screen s = Some Quiz /\
      currentQuestionIndex s < n /\ score s <= currentQuestionIndex s
  | Feedback =>
      submitAnswerBtn_hidden s = true /\ timers w = 1%nat /\ screen s = Some Quiz /\
      currentQuestionIndex s < n /\ score s <= currentQuestionIndex s + 1
  | Finished =>
      submitAnswerBtn_hidden s = true /\ timers w = O /\ screen s = Some Result /\
      currentQuestionIndex s = n /\ score s <= n
  end.

Definition on_result (s : State) : bool :=
  match screen s with
  | Some Result => true
  | _ => false
  end.

(** How many events of a run bring the page onto the Result screen from
    another one. *)
Fixpoint result_entries (marked_parse : string -> string)
    (Number_toString : spec_float -> string) (es : list Event) (w : World) : nat :=
  match es with
  | [] => O
  | e :: rest =>
      match fire marked_parse Number_toString e w with
      | None => O
      | Some w' =>
          ((if negb (on_result (page w)) && on_result (page w') then 1 else 0)
           + result_entries marked_parse Number_toString rest w')%nat
      end
  end.

(** ** Sample runs *)

Definition sample_quiz : list Question := [q1; q2; q3].

Definition world_after (es : list Event) : World :=
  match run plain no_exponent es (boot bare_document) with
  | Some w => w
  | None => boot bare_document
  end.

(** The page on which the sample quiz has just started. *)
Definition sample_start : World := Eval vm_compute in world_after (to_quiz sample_quiz).

(** The first question answered, rightly, and its delay expired. *)
Definition one_answer : list Event :=
  [Click_submitAnswerBtn (Some "1"); Delay_elapses].

Definition sample_midway : World :=
  Eval vm_compute in
    match run plain no_exponent one_answer sample_start with
    | Some w => w
    | None => sample_start
    end.

(** A page on the last question of a five-question quiz with [sc]
    right answers so far, as [showResults] finds it. *)
Definition five_questions : list Question := [q1; q2; q3; q1; q2].

Definition scored (sc : Z) : State :=
  mkState true true false true true false true
          "Math" "Fractions" "Beginner" "" "" "" "" ""
          (Some five_questions) 5 sc None.

(** ** What a rendered question shows

    Stated on the markup itself, apart from the template that produces
    it: [occurs x s] says that [x] is a contiguous part of [s]. *)

Definition occurs (x s : string) : Prop :=
  exists pre post : string, s = (pre ++ x ++ post)%string.

Definition starts_with (x s : string) : Prop :=
  exists post : string, s = (x ++ post)%string.

(** The progress line, counted from one: question [i + 1] of [n]. *)
Definition progress_line (i n : Z) : string :=
  "<p><strong>Question " ++ show_Z (i + 1) ++ "/" ++ show_Z n ++ ":</strong></p>".

(** The paragraph with the text of the question. *)
Definition question_paragraph (q : Question) : string :=
  "<p>" ++ question q ++ "</p>".

(** The radio input of the option at position [k]: its value is the
    option. *)
Definition radio_input (k : nat) (o : string) : string :=
  "<input type=" ++ dq ++ "radio" ++ dq ++ " id=" ++ dq ++ "option"
    ++ show_Z (Z.of_nat k) ++ dq ++ " name=" ++ dq ++ "quiz_option" ++ dq
    ++ " value=" ++ dq ++ o ++ dq ++ ">".

(** The label of the option at position [k]: its text is the option. *)
Definition option_label (k : nat) (o : string) : string :=
  "<label for=" ++ dq ++ "option" ++ show_Z (Z.of_nat k) ++ dq
    ++ " class=" ++ dq ++ "option-label" ++ dq ++ ">" ++ o ++ "</label>".

(** The markup shows question [q] as number [i + 1] of [n]: the
    progress line, the text of the question, and for every option at
    its position a radio input carrying it and a label reading it. *)
Definition renders (html : string) (i n : Z) (q : Question) : Prop :=
  occurs (progress_line i n) html /\
  occurs (question_paragraph q) html /\
  forall (k : nat) (o : string),
    nth_error (options q) k = Some o ->
    occurs (radio_input k o) html /\ occurs (option_label k o) html.


(** The lesson is on the page. *)
Definition lesson_world : World := Eval vm_compute in world_after to_lesson.

(** Restart from the lesson. *)
Definition restarted_lesson_world : World :=
  Eval vm_compute in world_after (to_lesson ++ [Click_restartBtn])%list.

(** A one-question quiz, its answer given and the advance pending. *)
Definition answer_pending : list Event :=
  (to_quiz [q1] ++ [Click_submitAnswerBtn (Some "1")])%list.

Definition pending_world : World := Eval vm_compute in world_after answer_pending.

(** Restart during the delay, which then expires. *)
Definition restarted_world : World :=
  Eval vm_compute in world_after (answer_pending ++ [Click_restartBtn])%list.

Definition stale_world : World :=
  Eval vm_compute in world_after (answer_pending ++ [Click_restartBtn; Delay_elapses])%list.


(** The quiz request of the sample lesson answered with no question. *)
Definition empty_quiz_world : World := Eval vm_compute in world_after (to_quiz []).

(** The way to a quiz from the loaded page: the form is filled in, the
    lesson arrives, the quiz is asked for and arrives. *)
Definition session_to_quiz (subj top lev html : string) (qs : list Question) : list Event :=
  [Edit_subject subj; Edit_topic top; Edit_level lev;
   Click_generateBtn;
   Settle 0 (HttpResponse 200 (Parsed (Some (mkPayload (Some html) None))));
   Click_startQuizBtn;
   Settle 0 (quiz_ok qs)].

(** The whole sample quiz answered rightly. *)
Definition all_right : list Event :=
  [Click_submitAnswerBtn (Some "1"); Delay_elapses;
   Click_submitAnswerBtn (Some "1/2"); Delay_elapses;
   Click_submitAnswerBtn (Some "1"); Delay_elapses].

(** ** Vocabulary of the further properties *)

(** The four [let] variables of the script. *)
Definition variables (s : State) : option (list Question) * Z * Z * option Selections :=
  (quizData s, currentQuestionIndex s, score s, userSelections s).

(** The lesson text of a response the lesson handler acts on: a success
    status, a body that parses to an object, a non-empty [lesson_html]. *)
Definition lesson_of (r : Response) : option string :=
  match r with
  | HttpResponse status (Parsed (Some d)) =>
      if ok status then
        match lesson_html d with
        | Some html => if truthy html then Some html else None
        | None => None
        end
      else None
  | _ => None
  end.

(** The generic notice of [fetchAPI]'s [catch] branch. *)
Definition failure_notice : Effect :=
  Alert "An error occurred. Please check the console and try again.".

(** One answer per question, each followed by the end of its delay. *)
Definition answer_events (answers : list string) : list Event :=
  flat_map (fun a => [Click_submitAnswerBtn (Some a); Delay_elapses]) answers.

(** The number of answers that equal the [answer] of their question. *)
Fixpoint grade (qs : list Question) (answers : list string) : Z :=
  match qs, answers with
  | q :: qs', a :: answers' =>
      (if String.eqb a (answer q) then 1 else 0) + grade qs' answers'
  | _, _ => 0
  end.

(** The quotient [sc / n] as a percentage with one decimal, times ten,
    rounded half up in exact arithmetic. *)
Definition exact_tenths (sc n : Z) : Z := (2000 * sc + n) / (2 * n).

Definition tenths_agree (sc n : Z) : bool :=
  match toFixed1 (percentage_value sc n) with
  | FixedDecimal false t => t =? exact_tenths sc n
  | _ => false
  end.

(** What holds of the counters on every page the loop can reach. *)
Definition counters_sound (w : World) : Prop :=
  0 <= currentQuestionIndex (page w) /\
  0 <= score (page w) /\
  score (page w) <= currentQuestionIndex (page w) + Z.of_nat (timers w).

(** The questions of a response the quiz handler acts on: a success
    status and a body that parses to an object with [questions]. *)
Definition questions_of (r : Response) : option (list Question) :=
  match r with
  | HttpResponse status (Parsed (Some d)) => if ok status then questions d else None
  | _ => None
  end.

(** The index names a question of the list. *)
Definition has_question (qs : list Question) (i : Z) : Prop :=
  0 <= i < Z.of_nat (List.length qs).

(** A page on the last question of an eighty-question quiz with 23
    right answers. *)
Definition eighty_questions : list Question := repeat q1 80.

Definition scored_23_of_80 : State :=
  mkState true true false true true false true
          "Math" "Fractions" "Beginner" "" "" "" "" ""
          (Some eighty_questions) 80 23 None.
(** * Properties *)

(** ** What each function does to the page *)

Lemma resetUI_outcome (s : State) :
  resetUI s =
  mkOutcome
    (mkState false true true true (loadingSpinner_hidden s) true (submitAnswerBtn_hidden s)
             (subjectEl_value s) "" (levelEl_value s)
             (lessonTitleEl_textContent s) (lessonContentEl_innerHTML s)
             (quizContentEl_innerHTML s) "" (resultTextEl_innerHTML s)
             None 0 0 (userSelections s))
    [] (Normal tt).
Proof. destruct s; reflexivity. Qed.

Lemma generateBtn_click_empty (s : State) :
  topicEl_value s = "" ->
  generateBtn_click s = mkOutcome s [Alert "Please enter a topic."] (Normal tt).
Proof.
  intros Htopic. destruct s; simpl in Htopic; subst. reflexivity.
Qed.

Lemma truthy_nonempty (x : string) : x <> "" -> truthy x = true.
Proof.
  intros Hx. unfold truthy. destruct (String.eqb_spec x ""); [contradiction | reflexivity].
Qed.

Lemma generateBtn_click_outcome (s : State) :
  topicEl_value s <> "" ->
  let sel := mkSelections (subjectEl_value s) (topicEl_value s) (levelEl_value s) in
  generateBtn_click s =
  mkOutcome (set_hidden loadingSpinner false (set_userSelections (Some sel) s))
            [Fetch "/generate_lesson" (Some sel) (AfterLesson (topicEl_value s))]
            (Normal tt).
Proof.
  intros Htopic. destruct s; simpl in *.
  unfold generateBtn_click, bind, read; simpl.
  rewrite (truthy_nonempty _ Htopic). reflexivity.
Qed.

Lemma startQuizBtn_click_outcome (s : State) :
  startQuizBtn_click s =
  mkOutcome (set_hidden loadingSpinner false s)
            [Fetch "/generate_quiz" (userSelections s) AfterQuiz]
            (Normal tt).
Proof. destruct s; reflexivity. Qed.

Lemma fetchAPI_return_failed (endpoint : string) (r : Response) (s : State) :
  transport_failed r = true ->
  fetchAPI_return endpoint r s =
  mkOutcome (set_hidden loadingSpinner true s)
            [ConsoleError ("Error fetching from " ++ endpoint ++ ":");
             Alert "An error occurred. Please check the console and try again."]
            (Normal None).
Proof.
  intros Hr. destruct r as [|status body]; [reflexivity|].
  simpl in Hr. unfold fetchAPI_return.
  destruct (ok status); simpl in *.
  - destruct body; [reflexivity | discriminate].
  - reflexivity.
Qed.

Lemma fetchAPI_return_parsed (endpoint : string) (status : Z) (data : option Payload) (s : State) :
  ok status = true ->
  fetchAPI_return endpoint (HttpResponse status (Parsed data)) s =
  mkOutcome (set_hidden loadingSpinner true s) [] (Normal data).
Proof.
  intros Hok. unfold fetchAPI_return. rewrite Hok. reflexivity.
Qed.

Lemma current_question_outcome (s : State) (qs : list Question) (q : Question) :
  quizData s = Some qs ->
  0 <= currentQuestionIndex s ->
  nth_error qs (Z.to_nat (currentQuestionIndex s)) = Some q ->
  current_question s = mkOutcome s [] (Normal q).
Proof.
  intros Hqs Hi Hq. unfold current_question, bind, read; simpl.
  rewrite Hqs. destruct (Z.ltb_spec (currentQuestionIndex s) 0); [lia|].
  rewrite Hq. reflexivity.
Qed.

Lemma current_question_undefined (s : State) (qs : list Question) :
  quizData s = Some qs ->
  (currentQuestionIndex s < 0 \/ Z.of_nat (List.length qs) <= currentQuestionIndex s) ->
  current_question s = mkOutcome s [] TypeError.
Proof.
  intros Hqs Hi. unfold current_question, bind, read; simpl.
  rewrite Hqs. destruct (Z.ltb_spec (currentQuestionIndex s) 0); [reflexivity|].
  destruct (nth_error qs (Z.to_nat (currentQuestionIndex s))) eqn:Hnth; [|reflexivity].
  assert (Hlt : (Z.to_nat (currentQuestionIndex s) < List.length qs)%nat).
  { apply nth_error_Some. congruence. }
  lia.
Qed.

Lemma current_question_null (s : State) :
  quizData s = None -> current_question s = mkOutcome s [] TypeError.
Proof.
  intros Hqs. unfold current_question, bind, read; simpl. rewrite Hqs. reflexivity.
Qed.

Lemma in_range_question (qs : list Question) (i : Z) :
  0 <= i < Z.of_nat (List.length qs) ->
  exists q, nth_error qs (Z.to_nat i) = Some q.
Proof.
  intros Hi. destruct (nth_error qs (Z.to_nat i)) eqn:Hnth; [eauto|].
  apply nth_error_None in Hnth. lia.
Qed.

Lemma submitAnswerBtn_click_outcome (s : State) (qs : list Question) (q : Question)
    (userAnswer : string) :
  quizData s = Some qs ->
  0 <= currentQuestionIndex s ->
  nth_error qs (Z.to_nat (currentQuestionIndex s)) = Some q ->
  submitAnswerBtn_click (Some userAnswer) s =
  mkOutcome
    (set_hidden submitAnswerBtn true
       (if String.eqb userAnswer (answer q)
        then set_feedbackSectionEl_innerHTML (correct_feedback ++ explanation_feedback q)
               (set_score (score s + 1) s)
        else set_feedbackSectionEl_innerHTML (incorrect_feedback q ++ explanation_feedback q) s))
    [SetTimeout 2500] (Normal tt).
Proof.
  intros Hqs Hi Hq. unfold submitAnswerBtn_click, bind.
  rewrite (current_question_outcome s qs q Hqs Hi Hq); simpl.
  destruct (String.eqb userAnswer (answer q)); destruct s; reflexivity.
Qed.

Lemma displayQuestion_outcome (s : State) (qs : list Question) (q : Question) :
  quizData s = Some qs ->
  0 <= currentQuestionIndex s ->
  nth_error qs (Z.to_nat (currentQuestionIndex s)) = Some q ->
  displayQuestion s =
  mkOutcome
    (set_quizContentEl_innerHTML
       (questionHTML (currentQuestionIndex s) (Z.of_nat (List.length qs)) q)
       (set_hidden submitAnswerBtn false (set_feedbackSectionEl_innerHTML "" s)))
    [] (Normal tt).
Proof.
  intros Hqs Hi Hq. destruct s; simpl in *; subst.
  unfold displayQuestion, bind, write, classList_remove; cbn -[current_question].
  erewrite current_question_outcome; simpl; eauto.
Qed.

Lemma displayQuestion_undefined (s : State) (qs : list Question) :
  quizData s = Some qs ->
  (currentQuestionIndex s < 0 \/ Z.of_nat (List.length qs) <= currentQuestionIndex s) ->
  displayQuestion s =
  mkOutcome (set_hidden submitAnswerBtn false (set_feedbackSectionEl_innerHTML "" s))
            [] TypeError.
Proof.
  intros Hqs Hi. destruct s; simpl in *; subst.
  unfold displayQuestion, bind, write, classList_remove; cbn -[current_question].
  erewrite current_question_undefined; simpl; eauto.
Qed.

Section Outcomes.

Variable marked_parse : string -> string.
Variable Number_toString : spec_float -> string.

Lemma showResults_outcome (s : State) (qs : list Question) :
  quizData s = Some qs ->
  let n := Z.of_nat (List.length qs) in
  let percentage := toFixed1 (percentage_value (score s) n) in
  showResults Number_toString s =
  mkOutcome
    (set_resultTextEl_innerHTML
       (result_summary Number_toString (score s) n percentage ++ tier_text percentage)
       (set_hidden resultSection false (set_hidden quizSection true s)))
    [] (Normal tt).
Proof.
  intros Hqs. destruct s; simpl in *; subst. reflexivity.
Qed.

Lemma advance_outcome_next (s : State) (qs : list Question) (q : Question) :
  quizData s = Some qs ->
  0 <= currentQuestionIndex s + 1 < Z.of_nat (List.length qs) ->
  nth_error qs (Z.to_nat (currentQuestionIndex s + 1)) = Some q ->
  advance Number_toString s =
  displayQuestion (set_currentQuestionIndex (currentQuestionIndex s + 1) s).
Proof.
  intros Hqs Hi Hq. destruct s; simpl in *; subst.
  unfold advance, bind, read, write, quizData_length; simpl.
  destruct (Z.ltb_spec (currentQuestionIndex0 + 1) (Z.of_nat (List.length qs))); [|lia].
  destruct (displayQuestion _) as [f e c]; simpl. destruct c; reflexivity.
Qed.

Lemma advance_outcome_last (s : State) (qs : list Question) :
  quizData s = Some qs ->
  Z.of_nat (List.length qs) <= currentQuestionIndex s + 1 ->
  advance Number_toString s =
  showResults Number_toString (set_currentQuestionIndex (currentQuestionIndex s + 1) s).
Proof.
  intros Hqs Hi. destruct s; simpl in *; subst.
  unfold advance, bind, read, write, quizData_length; simpl.
  destruct (Z.ltb_spec (currentQuestionIndex0 + 1) (Z.of_nat (List.length qs))); [lia|].
  reflexivity.
Qed.

Lemma advance_null (s : State) :
  quizData s = None ->
  advance Number_toString s =
  mkOutcome (set_currentQuestionIndex (currentQuestionIndex s + 1) s) [] TypeError.
Proof.
  intros Hqs. destruct s; simpl in *; subst. reflexivity.
Qed.

End Outcomes.

(** A quiz response with questions: the rest of the handler is
    [displayQuestion] on the page with the quiz stored and shown. *)
Lemma startQuizBtn_resume_questions (s : State) (status : Z) (lh : option string)
    (qs : list Question) :
  ok status = true ->
  startQuizBtn_resume (HttpResponse status (Parsed (Some (mkPayload lh (Some qs))))) s =
  displayQuestion
    (set_hidden quizSection false
       (set_hidden lessonSection true
          (set_quizData (Some qs) (set_hidden loadingSpinner true s)))).
Proof.
  intros Hok. unfold startQuizBtn_resume, bind.
  rewrite (fetchAPI_return_parsed _ status _ s Hok). cbn [completion final effects questions].
  unfold write, classList_add, classList_remove. cbn [completion final effects].
  destruct (displayQuestion _) as [f e c]. cbn [completion final effects].
  destruct c; reflexivity.
Qed.

(** ** What the question template shows *)

Lemma append_assoc (a b c : string) : ((a ++ b) ++ c = a ++ (b ++ c))%string.
Proof.
  induction a as [|ch a IH]; simpl; [reflexivity|]. rewrite IH. reflexivity.
Qed.

Lemma append_empty_r (a : string) : (a ++ "")%string = a.
Proof.
  induction a as [|ch a IH]; simpl; [reflexivity|]. rewrite IH. reflexivity.
Qed.

Lemma starts_with_cons (a x s : string) :
  starts_with x s -> starts_with (a ++ x) (a ++ s).
Proof.
  intros (post & ->). exists post. rewrite append_assoc. reflexivity.
Qed.

Lemma starts_with_last (a post : string) : starts_with a (a ++ post).
Proof. exists post. reflexivity. Qed.

Lemma starts_with_refl (a : string) : starts_with a a.
Proof. exists ""%string. rewrite append_empty_r. reflexivity. Qed.

Lemma occurs_start (x s : string) : starts_with x s -> occurs x s.
Proof. intros (post & ->). exists ""%string, post. reflexivity. Qed.

Lemma occurs_skip (x a b : string) : occurs x b -> occurs x (a ++ b).
Proof.
  intros (pre & post & ->). exists (a ++ pre)%string, post.
  rewrite append_assoc. reflexivity.
Qed.

Lemma occurs_app_l (x a b : string) : occurs x a -> occurs x (a ++ b).
Proof.
  intros (pre & post & ->). exists pre, (post ++ b)%string.
  rewrite !append_assoc. reflexivity.
Qed.

(** A run of the pieces of a concatenation occurs in it. *)
Ltac run_of_pieces :=
  first [ apply occurs_start;
          repeat apply starts_with_cons;
          first [ apply starts_with_last | apply starts_with_refl ]
        | apply occurs_skip; run_of_pieces ].

Lemma option_row_shows (index : nat) (o : string) :
  occurs (radio_input index o) (option_row index o) /\
  occurs (option_label index o) (option_row index o).
Proof.
  unfold option_row, radio_input, option_label. split; run_of_pieces.
Qed.

(** The rows come in the order of the options, numbered from [index]. *)
Lemma option_rows_show (opts : list string) :
  forall (index k : nat) (o : string),
    nth_error opts k = Some o ->
    occurs (radio_input (index + k) o) (option_rows index opts) /\
    occurs (option_label (index + k) o) (option_rows index opts).
Proof.
  induction opts as [|o' rest IH]; intros index k o Hk.
  - destruct k; discriminate.
  - destruct k as [|k]; cbn [option_rows].
    + simpl in Hk. injection Hk as ->. rewrite Nat.add_0_r.
      destruct (option_row_shows index o) as (Hin & Hlab).
      split; apply occurs_app_l; assumption.
    + simpl in Hk. destruct (IH (S index) k o Hk) as (Hin & Hlab).
      replace (index + S k)%nat with (S index + k)%nat by lia.
      split; apply occurs_skip; assumption.
Qed.

(** The template shows the question it is given, at the number it is
    given. *)
Lemma questionHTML_renders (i n : Z) (q : Question) : renders (questionHTML i n q) i n q.
Proof.
  unfold renders. split; [|split].
  - unfold questionHTML, progress_line. run_of_pieces.
  - unfold questionHTML, question_paragraph. run_of_pieces.
  - intros k o Hk. destruct (option_rows_show (options q) 0 k o Hk) as (Hin & Hlab).
    cbn [Nat.add] in Hin, Hlab.
    unfold questionHTML, optionsHTML.
    split; do 14 apply occurs_skip; apply occurs_app_l;
      do 5 apply occurs_skip; apply occurs_app_l; assumption.
Qed.

(** ** Turns of the event loop *)

Lemma deliver_outcome (h : M unit) (w : World) (s' : State) (es : list Effect)
    (c : Completion unit) :
  h (page w) = mkOutcome s' es c ->
  deliver h w =
  mkWorld s' (timers w + timeouts es)%nat (in_flight w ++ awaited es)%list
          (log w ++ observed (mkOutcome s' es c))%list.
Proof. intros Hh. unfold deliver. rewrite Hh. reflexivity. Qed.

Lemma fire_submit (P : string -> string) (N : spec_float -> string)
    (c : option string) (w : World) :
  fire P N (Click_submitAnswerBtn c) w =
  if submitAnswerBtn_hidden (page w) then None
  else Some (deliver (submitAnswerBtn_click c) w).
Proof. reflexivity. Qed.

Lemma fire_timeout (P : string -> string) (N : spec_float -> string) (w : World) (n : nat) :
  timers w = S n ->
  fire P N Delay_elapses w =
  Some (deliver (advance N) (mkWorld (page w) n (in_flight w) (log w))).
Proof. intros Ht. unfold fire. rewrite Ht. reflexivity. Qed.

Lemma run_cons (P : string -> string) (N : spec_float -> string)
    (e : Event) (es : list Event) (w : World) :
  run P N (e :: es) w =
  match fire P N e w with
  | None => None
  | Some w' => run P N es w'
  end.
Proof. reflexivity. Qed.

Lemma fire_settle (P : string -> string) (N : spec_float -> string) (w : World)
    (i : nat) (k : Continuation) (r : Response) :
  nth_error (in_flight w) i = Some k ->
  fire P N (Settle i r) w =
  Some (deliver (resume P k r)
          (mkWorld (page w) (timers w) (without i (in_flight w)) (log w))).
Proof. intros Hk. unfold fire. rewrite Hk. reflexivity. Qed.

(** ** One quiz run *)

Section QuizRun.

Variable P : string -> string.
Variable N : spec_float -> string.

Lemma quiz_started_answering (qs : list Question) (w : World) :
  qs <> [] -> quiz_started qs w -> in_phase qs Answering w.
Proof.
  intros Hne (Hqs & Hi & Hsc & Hbtn & Hscr & Ht).
  unfold in_phase. rewrite Hi, Hsc.
  destruct qs as [|q rest]; [contradiction|]. simpl List.length.
  repeat split; try assumption; lia.
Qed.

Lemma answering_submit (qs : list Question) (w : World) (a : string) :
  in_phase qs Answering w ->
  exists q w1,
    nth_error qs (Z.to_nat (currentQuestionIndex (page w))) = Some q /\
    fire P N (Click_submitAnswerBtn (Some a)) w = Some w1 /\
    in_phase qs Feedback w1 /\
    currentQuestionIndex (page w1) = currentQuestionIndex (page w) /\
    score (page w1) = score (page w) + (if String.eqb a (answer q) then 1 else 0) /\
    timers w1 = 1%nat /\
    log w1 = (log w ++ [SetTimeout 2500])%list.
Proof.
  destruct w as [s t fl lg]. unfold in_phase; cbn [page timers in_flight log].
  intros (Hqs & Hi & Hsc & Hbtn & Ht & Hscr & Hlt & Hle).
  destruct (in_range_question qs (currentQuestionIndex s)) as [q Hq]; [lia|].
  exists q. rewrite fire_submit. cbn [page]. rewrite Hbtn.
  erewrite deliver_outcome
    by (cbn [page]; apply (submitAnswerBtn_click_outcome s qs q a Hqs Hi Hq)).
  eexists; split; [exact Hq|]. split; [reflexivity|]. subst t. cbn.
  destruct (String.eqb a (answer q)); destruct s; simpl in *; subst;
    repeat split; try assumption; try reflexivity; lia.
Qed.

Lemma answering_submit_nothing (qs : list Question) (w : World) :
  in_phase qs Answering w ->
  exists w1,
    fire P N (Click_submitAnswerBtn None) w = Some w1 /\
    in_phase qs Answering w1 /\
    page w1 = page w /\
    log w1 = (log w ++ [Alert "Please select an answer."])%list.
Proof.
  destruct w as [s t fl lg]. unfold in_phase; cbn [page timers in_flight log].
  intros (Hqs & Hi & Hsc & Hbtn & Ht & Hscr & Hlt & Hle).
  rewrite fire_submit. cbn [page]. rewrite Hbtn.
  eexists; split; [reflexivity|]. subst t. cbn.
  repeat split; try assumption.
Qed.

Lemma answering_no_timeout (qs : list Question) (w : World) :
  in_phase qs Answering w -> fire P N Delay_elapses w = None.
Proof.
  destruct w as [s t fl lg]. unfold in_phase; cbn [page timers in_flight log].
  intros (_ & _ & _ & _ & Ht & _). subst t. reflexivity.
Qed.

Lemma feedback_no_submit (qs : list Question) (w : World) (c : option string) :
  in_phase qs Feedback w -> fire P N (Click_submitAnswerBtn c) w = None.
Proof.
  destruct w as [s t fl lg]. unfold in_phase; cbn [page timers in_flight log].
  intros (_ & _ & _ & Hbtn & _). rewrite fire_submit; simpl. rewrite Hbtn. reflexivity.
Qed.

Lemma finished_quiescent (qs : list Question) (w : World) (e : Event) :
  in_phase qs Finished w -> quiz_event e -> fire P N e w = None.
Proof.
  destruct w as [s t fl lg]. unfold in_phase; cbn [page timers in_flight log].
  intros (_ & _ & _ & Hbtn & Ht & _) He.
  destruct e; try contradiction.
  - rewrite fire_submit; simpl. rewrite Hbtn. reflexivity.
  - subst t. reflexivity.
Qed.

Lemma feedback_timeout_next (qs : list Question) (w : World) :
  in_phase qs Feedback w ->
  currentQuestionIndex (page w) + 1 < Z.of_nat (List.length qs) ->
  exists q w2,
    nth_error qs (Z.to_nat (currentQuestionIndex (page w) + 1)) = Some q /\
    fire P N Delay_elapses w = Some w2 /\
    in_phase qs Answering w2 /\
    currentQuestionIndex (page w2) = currentQuestionIndex (page w) + 1 /\
    score (page w2) = score (page w) /\
    quizContentEl_innerHTML (page w2) =
      questionHTML (currentQuestionIndex (page w) + 1) (Z.of_nat (List.length qs)) q /\
    feedbackSectionEl_innerHTML (page w2) = "" /\
    log w2 = log w.
Proof.
  destruct w as [s t fl lg]. unfold in_phase; cbn [page timers in_flight log].
  intros (Hqs & Hi & Hsc & Hbtn & Ht & Hscr & Hlt & Hle) Hnext.
  destruct (in_range_question qs (currentQuestionIndex s + 1)) as [q Hq]; [lia|].
  exists q. subst t. rewrite (fire_timeout _ _ _ O) by reflexivity.
  erewrite deliver_outcome.
  2:{ cbn [page].
      rewrite (advance_outcome_next N s qs q Hqs) by (assumption || lia).
      apply (displayQuestion_outcome _ qs q); destruct s; simpl in *; (assumption || lia). }
  eexists; split; [exact Hq|]. split; [reflexivity|].
  cbn. rewrite app_nil_r. destruct s; simpl in *; subst.
  repeat split; try assumption; try reflexivity; lia.
Qed.

Lemma feedback_timeout_last (qs : list Question) (w : World) :
  in_phase qs Feedback w ->
  Z.of_nat (List.length qs) <= currentQuestionIndex (page w) + 1 ->
  exists w2,
    fire P N Delay_elapses w = Some w2 /\
    in_phase qs Finished w2 /\
    currentQuestionIndex (page w2) = currentQuestionIndex (page w) + 1 /\
    score (page w2) = score (page w) /\
    log w2 = log w.
Proof.
  destruct w as [s t fl lg]. unfold in_phase; cbn [page timers in_flight log].
  intros (Hqs & Hi & Hsc & Hbtn & Ht & Hscr & Hlt & Hle) Hlast.
  subst t. rewrite (fire_timeout _ _ _ O) by reflexivity.
  erewrite deliver_outcome.
  2:{ cbn [page].
      rewrite (advance_outcome_last N s qs Hqs Hlast).
      apply (showResults_outcome N _ qs); destruct s; simpl in *; assumption. }
  eexists; split; [reflexivity|].
  cbn. rewrite app_nil_r. destruct s; simpl in *; subst.
  unfold screen in *; simpl in *.
  destruct setupSection_hidden0, lessonSection_hidden0, quizSection_hidden0,
    resultSection_hidden0; try discriminate.
  repeat split; try assumption; try reflexivity; lia.
Qed.

Lemma in_phase_unique (qs : list Question) (w : World) (ph ph' : Phase) :
  in_phase qs ph w -> in_phase qs ph' w -> ph = ph'.
Proof.
  unfold in_phase.
  intros (_ & _ & _ & H) (_ & _ & _ & H').
  destruct ph, ph'; try reflexivity;
    destruct H as (Hb & Ht & _); destruct H' as (Hb' & Ht' & _); congruence.
Qed.

Lemma in_phase_on_result (qs : list Question) (w : World) (ph : Phase) :
  in_phase qs ph w ->
  on_result (page w) = match ph with Finished => true | _ => false end.
Proof.
  unfold in_phase, on_result.
  intros (_ & _ & _ & H).
  destruct ph; destruct H as (_ & _ & Hscr & _); rewrite Hscr; reflexivity.
Qed.

(** One event of a quiz run moves the run one phase on (an empty
    submission leaves it in place); nothing moves a finished run. *)
Lemma quiz_step (qs : list Question) (w w' : World) (ph : Phase) (e : Event) :
  in_phase qs ph w ->
  quiz_event e ->
  fire P N e w = Some w' ->
  ph <> Finished /\ exists ph', in_phase qs ph' w'.
Proof.
  intros Hph He Hfire. destruct ph.
  - split; [discriminate|]. destruct e; try contradiction.
    + destruct checked as [a|].
      * destruct (answering_submit qs w a Hph) as (q & w1 & _ & Hf & Hph1 & _).
        rewrite Hf in Hfire. injection Hfire as <-. eauto.
      * destruct (answering_submit_nothing qs w Hph) as (w1 & Hf & Hph1 & _).
        rewrite Hf in Hfire. injection Hfire as <-. eauto.
    + rewrite (answering_no_timeout qs w Hph) in Hfire. discriminate.
  - split; [discriminate|]. destruct e; try contradiction.
    + rewrite (feedback_no_submit qs w checked Hph) in Hfire. discriminate.
    + destruct (Z_lt_le_dec (currentQuestionIndex (page w) + 1) (Z.of_nat (List.length qs)))
        as [Hnext|Hlast].
      * destruct (feedback_timeout_next qs w Hph Hnext) as (q & w2 & _ & Hf & Hph2 & _).
        rewrite Hf in Hfire. injection Hfire as <-. eauto.
      * destruct (feedback_timeout_last qs w Hph Hlast) as (w2 & Hf & Hph2 & _).
        rewrite Hf in Hfire. injection Hfire as <-. eauto.
  - rewrite (finished_quiescent qs w e Hph He) in Hfire. discriminate.
Qed.

Lemma finished_run (qs : list Question) (evs : list Event) (w w' : World) :
  in_phase qs Finished w ->
  Forall quiz_event evs ->
  run P N evs w = Some w' ->
  evs = [] /\ w' = w.
Proof.
  intros Hph Hall Hrun. destruct evs as [|e rest].
  - simpl in Hrun. injection Hrun as <-. split; reflexivity.
  - inversion Hall; subst. simpl in Hrun.
    rewrite (finished_quiescent qs w e Hph) in Hrun by assumption. discriminate.
Qed.

(** The phases are an invariant of every run, and the Result screen is
    entered by the one event that finishes the run. *)
Lemma quiz_run_phase (qs : list Question) (evs : list Event) :
  forall (w w' : World) (ph : Phase),
    in_phase qs ph w ->
    Forall quiz_event evs ->
    run P N evs w = Some w' ->
    exists ph',
      in_phase qs ph' w' /\
      result_entries P N evs w =
        match ph, ph' with
        | Finished, _ => O
        | _, Finished => 1%nat
        | _, _ => O
        end.
Proof.
  induction evs as [|e rest IH]; intros w w' ph Hph Hall Hrun.
  - simpl in Hrun. injection Hrun as <-. exists ph. split; [assumption|].
    destruct ph; reflexivity.
  - inversion Hall as [|e' rest' He Hrest]; subst.
    simpl in Hrun |- *. destruct (fire P N e w) as [w1|] eqn:Hfire; [|discriminate].
    destruct (quiz_step qs w w1 ph e Hph He Hfire) as (Hnf & ph1 & Hph1).
    destruct (IH w1 w' ph1 Hph1 Hrest Hrun) as (ph' & Hph' & Hcount).
    exists ph'. split; [assumption|].
    rewrite Hcount, (in_phase_on_result qs w ph Hph), (in_phase_on_result qs w1 ph1 Hph1).
    destruct ph; try contradiction; destruct ph1, ph'; try reflexivity;
      destruct (finished_run qs rest w1 w' Hph1 Hrest Hrun) as [_ ->];
      pose proof (in_phase_unique qs w1 _ _ Hph1 Hph'); discriminate.
Qed.

End QuizRun.

(** ** Score and progress in a quiz run *)

(** C4.  From the start of a quiz of [n >= 1] questions, whatever
    answers are submitted and whenever the delays expire, the score
    stays between 0 and [n]; a submission raises it by exactly one when
    the selected string is the question's [answer], character for
    character, and leaves it alone otherwise; nothing else moves it. *)
Theorem score_bounded_exact_match :
  forall (P : string -> string) (N : spec_float -> string)
         (qs : list Question) (w : World) (evs : list Event) (w' : World),
    qs <> [] ->
    quiz_started qs w ->
    Forall quiz_event evs ->
    run P N evs w = Some w' ->
    0 <= score (page w') <= Z.of_nat (List.length qs) /\
    (forall (a : string) (w1 : World),
        fire P N (Click_submitAnswerBtn (Some a)) w' = Some w1 ->
        exists q,
          nth_error qs (Z.to_nat (currentQuestionIndex (page w'))) = Some q /\
          (score (page w1) = score (page w') + 1 <-> a = answer q) /\
          (a <> answer q -> score (page w1) = score (page w'))) /\
    (forall w1 : World,
        fire P N (Click_submitAnswerBtn None) w' = Some w1 ->
        score (page w1) = score (page w')) /\
    (forall w1 : World,
        fire P N Delay_elapses w' = Some w1 -> score (page w1) = score (page w')).
Proof.
  intros P N qs w evs w' Hne Hstart Hall Hrun.
  destruct (quiz_run_phase P N qs evs w w' Answering
              (quiz_started_answering qs w Hne Hstart) Hall Hrun) as (ph & Hph & _).
  split; [|split; [|split]].
  - unfold in_phase in Hph. destruct Hph as (_ & _ & Hsc & H).
    destruct ph; destruct H as (_ & _ & _ & Hi & Hle); lia.
  - intros a w1 Hfire. destruct ph.
    + destruct (answering_submit P N qs w' a Hph) as (q & w2 & Hq & Hf & _ & _ & Hscore & _).
      rewrite Hf in Hfire. injection Hfire as <-.
      exists q. split; [assumption|]. rewrite Hscore.
      destruct (String.eqb_spec a (answer q)) as [Heq|Hneq].
      * split; [tauto | contradiction].
      * split; [split; [lia | contradiction] | lia].
    + rewrite (feedback_no_submit P N qs w' _ Hph) in Hfire. discriminate.
    + rewrite (finished_quiescent P N qs w' _ Hph) in Hfire by exact I. discriminate.
  - intros w1 Hfire. destruct ph.
    + destruct (answering_submit_nothing P N qs w' Hph) as (w2 & Hf & _ & Hpage & _).
      rewrite Hf in Hfire. injection Hfire as <-. rewrite Hpage. reflexivity.
    + rewrite (feedback_no_submit P N qs w' _ Hph) in Hfire. discriminate.
    + rewrite (finished_quiescent P N qs w' _ Hph) in Hfire by exact I. discriminate.
  - intros w1 Hfire. destruct ph.
    + rewrite (answering_no_timeout P N qs w' Hph) in Hfire. discriminate.
    + destruct (Z_lt_le_dec (currentQuestionIndex (page w') + 1) (Z.of_nat (List.length qs)))
        as [Hnext|Hlast].
      * destruct (feedback_timeout_next P N qs w' Hph Hnext)
          as (q & w2 & _ & Hf & _ & _ & Hscore & _).
        rewrite Hf in Hfire. injection Hfire as <-. assumption.
      * destruct (feedback_timeout_last P N qs w' Hph Hlast)
          as (w2 & Hf & _ & _ & Hscore & _).
        rewrite Hf in Hfire. injection Hfire as <-. assumption.
    + rewrite (finished_quiescent P N qs w' _ Hph) in Hfire by exact I. discriminate.
Qed.

Lemma score_bounded_exact_match_witness :
  0 <= score (page sample_midway) <= 3 /\
  (forall (a : string) (w1 : World),
      fire plain no_exponent (Click_submitAnswerBtn (Some a)) sample_midway = Some w1 ->
      exists q,
        nth_error sample_quiz (Z.to_nat (currentQuestionIndex (page sample_midway))) = Some q /\
        (score (page w1) = score (page sample_midway) + 1 <-> a = answer q) /\
        (a <> answer q -> score (page w1) = score (page sample_midway))) /\
  (forall w1 : World,
      fire plain no_exponent (Click_submitAnswerBtn None) sample_midway = Some w1 ->
      score (page w1) = score (page sample_midway)) /\
  (forall w1 : World,
      fire plain no_exponent Delay_elapses sample_midway = Some w1 ->
      score (page w1) = score (page sample_midway)).
Proof.
  apply (score_bounded_exact_match plain no_exponent sample_quiz sample_start one_answer).
  - discriminate.
  - repeat split.
  - repeat constructor.
  - reflexivity.
Defined.

(** C5.  In a quiz run every accepted answer schedules one advance and
    leaves the index alone; that advance adds exactly one to the index
    and then either renders the next question (its number out of the
    total, its text and every one of its options as a radio input and a
    label; feedback cleared, answer button back) or, on the last
    question, shows the results.  The
    index never passes the length of the quiz, the page is on the
    Result screen exactly when the index has reached it, and a run
    enters the Result screen at most once: once exactly when it reaches
    the end. *)
Theorem advance_by_one_result_once :
  forall (P : string -> string) (N : spec_float -> string)
         (qs : list Question) (w : World) (evs : list Event) (w' : World),
    qs <> [] ->
    quiz_started qs w ->
    Forall quiz_event evs ->
    run P N evs w = Some w' ->
    let n := Z.of_nat (List.length qs) in
    let i := currentQuestionIndex (page w') in
    0 <= i <= n /\
    (on_result (page w') = true <-> i = n) /\
    (result_entries P N evs w <= 1)%nat /\
    (result_entries P N evs w = 1%nat <-> i = n) /\
    (forall (a : string) (w1 : World),
        fire P N (Click_submitAnswerBtn (Some a)) w' = Some w1 ->
        timers w' = O /\ timers w1 = 1%nat /\
        log w1 = (log w' ++ [SetTimeout 2500])%list /\
        currentQuestionIndex (page w1) = i /\
        submitAnswerBtn_hidden (page w1) = true /\
        exists w2,
          fire P N Delay_elapses w1 = Some w2 /\
          timers w2 = O /\
          currentQuestionIndex (page w2) = i + 1 /\
          (i + 1 < n ->
           exists q,
             nth_error qs (Z.to_nat (i + 1)) = Some q /\
             screen (page w2) = Some Quiz /\
             quizContentEl_innerHTML (page w2) = questionHTML (i + 1) n q /\
             renders (quizContentEl_innerHTML (page w2)) (i + 1) n q /\
             feedbackSectionEl_innerHTML (page w2) = "" /\
             submitAnswerBtn_hidden (page w2) = false) /\
          (n <= i + 1 -> screen (page w2) = Some Result)).
Proof.
  intros P N qs w evs w' Hne Hstart Hall Hrun n i.
  destruct (quiz_run_phase P N qs evs w w' Answering
              (quiz_started_answering qs w Hne Hstart) Hall Hrun) as (ph & Hph & Hcount).
  pose proof (in_phase_on_result qs w' ph Hph) as Hres.
  assert (Hidx : 0 <= i <= n /\ (i = n <-> ph = Finished)).
  { unfold in_phase in Hph. destruct Hph as (_ & Hi & _ & H). fold n i in H, Hi.
    destruct ph; destruct H as (_ & _ & _ & Hlt & _);
      (split; [lia | split; [intros; (lia || reflexivity) | intros; (discriminate || lia)]]). }
  destruct Hidx as (Hbound & Hfin).
  split; [exact Hbound|]. split; [|split; [|split]].
  - rewrite Hres, Hfin. destruct ph; split; intros; (reflexivity || discriminate).
  - rewrite Hcount. destruct ph; lia.
  - rewrite Hcount, Hfin. destruct ph; split; intros; (reflexivity || discriminate).
  - intros a w1 Hfire. destruct ph.
    + destruct (answering_submit P N qs w' a Hph)
        as (q & w1' & _ & Hf & Hph1 & Hi1 & _ & Ht1 & Hlog1).
      rewrite Hf in Hfire. injection Hfire as <-.
      assert (Ht : timers w' = O) by (destruct Hph as (_ & _ & _ & _ & Ht & _); exact Ht).
      assert (Hb1 : submitAnswerBtn_hidden (page w1') = true)
        by (destruct Hph1 as (_ & _ & _ & Hb & _); exact Hb).
      do 5 (split; [assumption|]).
      fold i in Hi1.
      destruct (Z_lt_le_dec (currentQuestionIndex (page w1') + 1) n) as [Hnext|Hlast].
      * destruct (feedback_timeout_next P N qs w1' Hph1 Hnext)
          as (q' & w2 & Hq' & Hf2 & Hph2 & Hi2 & _ & Hhtml & Hfb & _).
        exists w2. rewrite Hi1 in *.
        destruct Hph2 as (_ & _ & _ & Hb2 & Ht2 & Hscr2 & _).
        split; [assumption|]. split; [assumption|]. split; [assumption|].
        split; [|intros; lia].
        intros _. exists q'.
        split; [assumption|]. split; [assumption|]. split; [assumption|].
        split; [rewrite Hhtml; apply questionHTML_renders|].
        split; assumption.
      * destruct (feedback_timeout_last P N qs w1' Hph1 Hlast)
          as (w2 & Hf2 & Hph2 & Hi2 & _).
        exists w2. rewrite Hi1 in *.
        destruct Hph2 as (_ & _ & _ & Hb2 & Ht2 & Hscr2 & _).
        split; [assumption|]. split; [assumption|]. split; [assumption|].
        split; [intros; lia|]. intros _. assumption.
    + rewrite (feedback_no_submit P N qs w' _ Hph) in Hfire. discriminate.
    + rewrite (finished_quiescent P N qs w' _ Hph) in Hfire by exact I. discriminate.
Qed.

Lemma advance_by_one_result_once_witness :
  let n := Z.of_nat (List.length sample_quiz) in
  let i := currentQuestionIndex (page sample_midway) in
  0 <= i <= n /\
  (on_result (page sample_midway) = true <-> i = n) /\
  (result_entries plain no_exponent one_answer sample_start <= 1)%nat /\
  (result_entries plain no_exponent one_answer sample_start = 1%nat <-> i = n) /\
  (forall (a : string) (w1 : World),
      fire plain no_exponent (Click_submitAnswerBtn (Some a)) sample_midway = Some w1 ->
      timers sample_midway = O /\ timers w1 = 1%nat /\
      log w1 = (log sample_midway ++ [SetTimeout 2500])%list /\
      currentQuestionIndex (page w1) = i /\
      submitAnswerBtn_hidden (page w1) = true /\
      exists w2,
        fire plain no_exponent Delay_elapses w1 = Some w2 /\
        timers w2 = O /\
        currentQuestionIndex (page w2) = i + 1 /\
        (i + 1 < n ->
         exists q,
           nth_error sample_quiz (Z.to_nat (i + 1)) = Some q /\
           screen (page w2) = Some Quiz /\
           quizContentEl_innerHTML (page w2) = questionHTML (i + 1) n q /\
           renders (quizContentEl_innerHTML (page w2)) (i + 1) n q /\
           feedbackSectionEl_innerHTML (page w2) = "" /\
           submitAnswerBtn_hidden (page w2) = false) /\
        (n <= i + 1 -> screen (page w2) = Some Result)).
Proof.
  apply (advance_by_one_result_once plain no_exponent sample_quiz sample_start one_answer).
  - discriminate.
  - repeat split.
  - repeat constructor.
  - reflexivity.
Defined.

(** ** The result *)

(** [toFixed(1)] picks the nearest decimal with one fractional digit:
    for a double [m * 2^e], ten times the double lies within one half
    of [nearest_tenths m e], the upper end excluded. *)
Lemma nearest_tenths_negative_exponent (m p : positive) :
  let t := nearest_tenths m (Zneg p) in
  (2 * t - 1) * 2 ^ Zpos p <= 20 * Zpos m < (2 * t + 1) * 2 ^ Zpos p.
Proof.
  unfold nearest_tenths.
  assert (Hpow : 0 < 2 ^ Zpos p) by (apply Z.pow_pos_nonneg; lia).
  rewrite Z.pow_add_r by lia. change (2 ^ 1) with 2.
  set (d := 2 ^ Zpos p) in *.
  pose proof (Z.div_mod (20 * Zpos m + d) (d * 2) ltac:(lia)) as Hdm.
  pose proof (Z.mod_pos_bound (20 * Zpos m + d) (d * 2) ltac:(lia)) as Hmod.
  cbv zeta. nia.
Qed.

Lemma nearest_tenths_integer (m : positive) (e : Z) :
  0 <= e -> nearest_tenths m e = 10 * Zpos m * 2 ^ e.
Proof.
  intros He. unfold nearest_tenths. destruct e; try reflexivity. lia.
Qed.

Lemma resultText_set (v : string) (s : State) :
  resultTextEl_innerHTML (set_resultTextEl_innerHTML v s) = v.
Proof. destruct s; reflexivity. Qed.

Lemma tier_texts_distinct :
  excellent_text <> good_text /\ excellent_text <> review_text /\ good_text <> review_text.
Proof. unfold excellent_text, good_text, review_text. repeat split; discriminate. Qed.

Lemma tenths_agree_up_to_79 :
  forallb (fun n => forallb (fun sc => tenths_agree (Z.of_nat sc) (Z.of_nat n)) (seq 0 (S n)))
          (seq 1 79) = true.
Proof. vm_compute. reflexivity. Qed.

Lemma tenths_agree_sound (sc n : Z) :
  tenths_agree sc n = true ->
  toFixed1 (percentage_value sc n) = FixedDecimal false (exact_tenths sc n).
Proof.
  unfold tenths_agree.
  destruct (toFixed1 (percentage_value sc n)) as [| |[|] t|]; try discriminate.
  intros H. apply Z.eqb_eq in H. rewrite H. reflexivity.
Qed.

Lemma tenths_agree_small (sc n : Z) :
  1 <= n <= 79 -> 0 <= sc <= n -> tenths_agree sc n = true.
Proof.
  intros Hn Hsc. pose proof (proj1 (forallb_forall _ _) tenths_agree_up_to_79) as Hall.
  cbv beta in Hall.
  assert (Hin : In (Z.to_nat n) (seq 1 79)) by (apply in_seq; lia).
  pose proof (proj1 (forallb_forall _ _) (Hall (Z.to_nat n) Hin)) as Hrow.
  cbv beta in Hrow.
  assert (Hin' : In (Z.to_nat sc) (seq 0 (S (Z.to_nat n)))) by (apply in_seq; lia).
  pose proof (Hrow (Z.to_nat sc) Hin') as Hcell.
  rewrite !Z2Nat.id in Hcell by lia. exact Hcell.
Qed.

(** The exact rounding lies within half a tenth of the quotient, and
    for fewer than 400 questions it reaches 80.0 and 60.0 exactly when
    the quotient reaches four fifths and three fifths. *)
Lemma exact_tenths_nearest (sc n : Z) :
  0 < n ->
  (2 * exact_tenths sc n - 1) * n <= 2000 * sc < (2 * exact_tenths sc n + 1) * n.
Proof.
  intros Hn. unfold exact_tenths.
  pose proof (Z.mul_div_le (2000 * sc + n) (2 * n) ltac:(lia)) as Hlo.
  pose proof (Z.mul_succ_div_gt (2000 * sc + n) (2 * n) ltac:(lia)) as Hhi.
  set (t := (2000 * sc + n) / (2 * n)) in *. lia.
Qed.

Lemma exact_tenths_thresholds (sc n : Z) :
  1 <= n <= 79 ->
  (800 <= exact_tenths sc n <-> 4 * n <= 5 * sc) /\
  (600 <= exact_tenths sc n <-> 3 * n <= 5 * sc).
Proof.
  intros Hn. pose proof (exact_tenths_nearest sc n ltac:(lia)) as Ht.
  set (t := exact_tenths sc n) in *.
  split; split; intros H.
  - assert ((2 * 800 - 1) * n <= (2 * t - 1) * n) by (apply Z.mul_le_mono_nonneg_r; lia). lia.
  - unfold t, exact_tenths. apply Z.div_le_lower_bound; lia.
  - assert ((2 * 600 - 1) * n <= (2 * t - 1) * n) by (apply Z.mul_le_mono_nonneg_r; lia). lia.
  - unfold t, exact_tenths. apply Z.div_le_lower_bound; lia.
Qed.

(** C6, as the code has it.  [showResults] shows the Result screen and
    writes the score, the total and the percentage, followed by the
    message of the tier.  The percentage is the double
    [(score / length) * 100], computed with the binary64 division and
    multiplication, printed by [toFixed(1)]: with [t / 10] the decimal
    shown, [t] is the integer nearest to ten times that double, the
    larger one on a tie.  The tier is "excellent" exactly from 80.0 on,
    "good" exactly from 60.0 up to but not including 80.0, and "needs
    review" exactly below 60.0.  For a quiz of at most 79 questions and
    a score it can end with, [t / 10] is the exact quotient rounded half
    up to one decimal and the tiers start at four fifths and three
    fifths of the questions; beyond that the double shows: 23 of 80 is
    28.75 percent and 28.7 is written.  So 4 of 5 gives 80.0 and
    excellent, 3 of 5 gives 60.0 and good, 2 of 5 gives 40.0 and needs
    review. *)
Theorem showResults_percentage_tiers :
  forall (N : spec_float -> string) (s : State) (qs : list Question) (t : Z),
    quizData s = Some qs ->
    let n := Z.of_nat (List.length qs) in
    let x := SFmul 53 1024
               (SFdiv 53 1024 (binary_normalize 53 1024 (score s) 0 false)
                              (binary_normalize 53 1024 n 0 false))
               (binary_normalize 53 1024 100 0 false) in
    toFixed1 x = FixedDecimal false t ->
    let s' := final (showResults N s) in
    let tier := if 800 <=? t then excellent_text
                else if 600 <=? t then good_text else review_text in
    (forall m p, x = S754_finite false m (Zneg p) ->
       (2 * t - 1) * 2 ^ Zpos p <= 20 * Zpos m < (2 * t + 1) * 2 ^ Zpos p) /\
    (forall m e, x = S754_finite false m e -> 0 <= e -> t = 10 * Zpos m * 2 ^ e) /\
    (forall sg, x = S754_zero sg -> t = 0) /\
    quizSection_hidden s' = true /\
    resultSection_hidden s' = false /\
    resultTextEl_innerHTML s' =
      (("You scored " ++ show_Z (score s) ++ " out of " ++ show_Z n
          ++ " (" ++ (show_Z (t / 10) ++ "." ++ show_Z (t mod 10)) ++ "%).") ++ tier)%string /\
    tier_text (toFixed1 x) = tier /\
    (tier = excellent_text <-> 800 <= t) /\
    (tier = good_text <-> 600 <= t < 800) /\
    (tier = review_text <-> t < 600) /\
    (1 <= n <= 79 -> 0 <= score s <= n ->
     t = (2000 * score s + n) / (2 * n) /\
     (2 * t - 1) * n <= 2000 * score s < (2 * t + 1) * n /\
     (tier = excellent_text <-> 4 * n <= 5 * score s) /\
     (tier = good_text <-> 3 * n <= 5 * score s < 4 * n) /\
     (tier = review_text <-> 5 * score s < 3 * n)) /\
    (toFixed1 (percentage_value 23 80) = FixedDecimal false 287 /\
     2 * (1000 * 23) = 575 * 80) /\
    (toFixed1 (percentage_value 4 5) = FixedDecimal false 800 /\
     Fixed_toString N (toFixed1 (percentage_value 4 5)) = "80.0" /\
     tier_text (toFixed1 (percentage_value 4 5)) = excellent_text) /\
    (toFixed1 (percentage_value 3 5) = FixedDecimal false 600 /\
     Fixed_toString N (toFixed1 (percentage_value 3 5)) = "60.0" /\
     tier_text (toFixed1 (percentage_value 3 5)) = good_text) /\
    (toFixed1 (percentage_value 2 5) = FixedDecimal false 400 /\
     Fixed_toString N (toFixed1 (percentage_value 2 5)) = "40.0" /\
     tier_text (toFixed1 (percentage_value 2 5)) = review_text).
Proof.
  intros N s qs t Hqs n x Hfixed s' tier.
  assert (Hx : x = percentage_value (score s) n) by reflexivity.
  clearbody x. subst x.
  destruct tier_texts_distinct as (Heg & Her & Hgr).
  assert (Htier : tier_text (toFixed1 (percentage_value (score s) n)) = tier).
  { unfold tier_text. rewrite Hfixed. reflexivity. }
  assert (H8 : tier = excellent_text <-> 800 <= t).
  { unfold tier. destruct (Z.leb_spec 800 t); [tauto|].
    destruct (Z.leb_spec 600 t); split; intros; try lia; congruence. }
  assert (H6 : tier = good_text <-> 600 <= t < 800).
  { unfold tier. destruct (Z.leb_spec 800 t).
    - split; intros; try lia; congruence.
    - destruct (Z.leb_spec 600 t); split; intros; try lia; try reflexivity; congruence. }
  assert (H0 : tier = review_text <-> t < 600).
  { unfold tier. destruct (Z.leb_spec 800 t).
    - split; intros; try lia; congruence.
    - destruct (Z.leb_spec 600 t); split; intros; try lia; try reflexivity; congruence. }
  split; [|split; [|split]].
  - intros m p Hx. rewrite Hx in Hfixed. cbv beta iota delta [toFixed1] in Hfixed.
    destruct (10 ^ 22 <=? nearest_tenths m (Zneg p)); [discriminate|].
    injection Hfixed as <-. apply nearest_tenths_negative_exponent.
  - intros m e Hx He. rewrite Hx in Hfixed. cbv beta iota delta [toFixed1] in Hfixed.
    destruct (10 ^ 22 <=? nearest_tenths m e); [discriminate|].
    injection Hfixed as <-. apply nearest_tenths_integer. assumption.
  - intros sg Hx. rewrite Hx in Hfixed. cbv beta iota delta [toFixed1] in Hfixed. congruence.
  - unfold s'. rewrite (showResults_outcome N s qs Hqs). fold n.
    split; [destruct s; reflexivity|]. split; [destruct s; reflexivity|].
    split.
    { cbn [final]. rewrite resultText_set, Htier. unfold result_summary. rewrite Hfixed.
      reflexivity. }
    split; [exact Htier|]. split; [exact H8|]. split; [exact H6|]. split; [exact H0|].
    split.
    { intros Hn Hsc.
      pose proof (tenths_agree_sound _ _ (tenths_agree_small (score s) n Hn Hsc)) as Hexact.
      rewrite Hfixed in Hexact. injection Hexact as Ht.
      pose proof (exact_tenths_nearest (score s) n ltac:(lia)) as Hnear.
      destruct (exact_tenths_thresholds (score s) n Hn) as (T8 & T6).
      rewrite <- Ht in Hnear, T8, T6.
      split; [rewrite Ht; reflexivity|]. split; [exact Hnear|].
      rewrite H8, H6, H0. split; [exact T8|]. split; [|].
      - split; intros H.
        + split; [apply T6; lia|].
          destruct (Z_lt_le_dec (5 * score s) (4 * n)) as [Hlt|Hge]; [exact Hlt|].
          apply T8 in Hge. lia.
        + split; [apply T6; lia|].
          destruct (Z_lt_le_dec t 800) as [Hlt|Hge]; [exact Hlt|]. apply T8 in Hge. lia.
      - split; intros H.
        + destruct (Z_lt_le_dec (5 * score s) (3 * n)) as [Hlt|Hge]; [exact Hlt|].
          apply T6 in Hge. lia.
        + destruct (Z_lt_le_dec t 600) as [Hlt|Hge]; [exact Hlt|]. apply T6 in Hge. lia. }
    repeat split; vm_compute; reflexivity.
Qed.

(** C6 as stated fails: 23 right answers out of 80 questions are
    exactly 28.75 percent, which rounds to 28.8, and the page reads
    28.7. *)
Lemma percentage_of_23_in_80_not_rounded :
  resultTextEl_innerHTML (final (showResults no_exponent scored_23_of_80))
    = ("You scored 23 out of 80 (28.7%)." ++ review_text)%string /\
  2 * (1000 * 23) = 575 * 80 /\
  exact_tenths 23 80 = 288 /\
  toFixed1 (percentage_value 23 80) <> FixedDecimal false (exact_tenths 23 80).
Proof.
  split; [vm_compute; reflexivity|]. split; [reflexivity|]. split; [reflexivity|].
  vm_compute. discriminate.
Qed.

Lemma showResults_percentage_tiers_witness :
  resultTextEl_innerHTML (final (showResults no_exponent (scored 4))) =
    "You scored 4 out of 5 (80.0%).<br>Excellent! You have a strong grasp of this topic." /\
  resultTextEl_innerHTML (final (showResults no_exponent (scored 3))) =
    "You scored 3 out of 5 (60.0%).<br>Good job! Review the lesson for any tricky points." /\
  resultTextEl_innerHTML (final (showResults no_exponent (scored 2))) =
    "You scored 2 out of 5 (40.0%).<br>It's a good start. Let's review the lesson and try again!".
Proof.
  pose proof (showResults_percentage_tiers no_exponent (scored 4) five_questions 800
                eq_refl eq_refl) as H4.
  pose proof (showResults_percentage_tiers no_exponent (scored 3) five_questions 600
                eq_refl eq_refl) as H3.
  pose proof (showResults_percentage_tiers no_exponent (scored 2) five_questions 400
                eq_refl eq_refl) as H2.
  split; [|split].
  - exact (proj1 (proj2 (proj2 (proj2 (proj2 (proj2 H4)))))).
  - exact (proj1 (proj2 (proj2 (proj2 (proj2 (proj2 H3)))))).
  - exact (proj1 (proj2 (proj2 (proj2 (proj2 (proj2 H2)))))).
Defined.

(** ** Restart *)

(** The advance callback finds nothing to advance on a page that was
    just reset: it has already counted the index up when the read of
    [quizData.length] throws. *)
Lemma advance_after_resetUI (N : spec_float -> string) (s : State) :
  let s0 := final (resetUI s) in
  advance N s0 = mkOutcome (set_currentQuestionIndex 1 s0) [] TypeError.
Proof.
  cbv zeta. rewrite resetUI_outcome. cbn [final]. apply advance_null. reflexivity.
Qed.

(** [resetUI] neither cancels nor counts timers. *)
Lemma restart_keeps_timers (P : string -> string) (N : spec_float -> string) (w : World) :
  exists w', fire P N Click_restartBtn w = Some w' /\
             timers w' = timers w /\ in_flight w' = in_flight w /\ log w' = log w.
Proof.
  eexists. split; [reflexivity|]. unfold deliver, restartBtn_click.
  rewrite resetUI_outcome. cbn. rewrite !app_nil_r, Nat.add_0_r. repeat split.
Qed.

(** C1.  Answer the only question of a quiz, restart while the advance
    is pending, let the delay expire: the restart leaves the timer in
    place, and the callback raises the index of the fresh session to 1
    before it throws on the missing quiz.  The page is no longer the
    one restart produced. *)
Theorem stale_advance_mutates_reset_state :
  run plain no_exponent answer_pending (boot bare_document) = Some pending_world /\
  timers pending_world = 1%nat /\
  fire plain no_exponent Click_restartBtn pending_world = Some restarted_world /\
  timers restarted_world = 1%nat /\
  currentQuestionIndex (page restarted_world) = 0 /\
  fire plain no_exponent Delay_elapses restarted_world = Some stale_world /\
  currentQuestionIndex (page stale_world) = 1 /\
  page stale_world <> page restarted_world /\
  page stale_world <> page (boot bare_document) /\
  log stale_world = (log restarted_world ++ [Uncaught])%list /\
  screen (page stale_world) = Some Setup.
Proof.
  repeat split; try discriminate.
Qed.

(** C3, as the code has it.  From every state restart ends on the Setup
    screen with no quiz, both counters at zero, the topic input and the
    feedback cleared and the quiz button hidden; it emits nothing and
    does not throw; it leaves the spinner, the stored selections and
    everything else it does not assign as they were; and a second
    restart changes nothing more. *)
Theorem restart_resets_the_session :
  forall s : State,
    let o := restartBtn_click s in
    let s' := final o in
    completion o = Normal tt /\ effects o = [] /\
    screen s' = Some Setup /\
    quizData s' = None /\ currentQuestionIndex s' = 0 /\ score s' = 0 /\
    topicEl_value s' = "" /\ feedbackSectionEl_innerHTML s' = "" /\
    startQuizBtn_hidden s' = true /\
    isLoading s' = isLoading s /\
    userSelections s' = userSelections s /\
    submitAnswerBtn_hidden s' = submitAnswerBtn_hidden s /\
    subjectEl_value s' = subjectEl_value s /\ levelEl_value s' = levelEl_value s /\
    lessonTitleEl_textContent s' = lessonTitleEl_textContent s /\
    lessonContentEl_innerHTML s' = lessonContentEl_innerHTML s /\
    quizContentEl_innerHTML s' = quizContentEl_innerHTML s /\
    resultTextEl_innerHTML s' = resultTextEl_innerHTML s /\
    restartBtn_click s' = mkOutcome s' [] (Normal tt).
Proof.
  intros s. cbv zeta. unfold restartBtn_click.
  rewrite resetUI_outcome. cbn [final effects completion].
  rewrite resetUI_outcome. destruct s; repeat split.
Qed.

(** C3 as stated fails: after a lesson was requested, restart keeps the
    selections of that request. *)
Lemma restart_keeps_selections :
  ~ is_initial (final (restartBtn_click (page lesson_world))).
Proof.
  intros (_ & _ & _ & _ & _ & Hsel & _). discriminate Hsel.
Qed.

(** ** Starting the quiz *)




(** C2.  A successful response whose [questions] is the empty array
    passes the truthiness test: the Lesson section is hidden, the Quiz
    section is shown with no question in it, and rendering throws. *)
Theorem empty_quiz_reaches_quiz_screen :
  run plain no_exponent to_lesson (boot bare_document) = Some lesson_world /\
  screen (page lesson_world) = Some Lesson /\
  run plain no_exponent [Click_startQuizBtn; Settle 0 (quiz_ok [])] lesson_world
    = Some empty_quiz_world /\
  screen (page empty_quiz_world) = Some Quiz /\
  quizData (page empty_quiz_world) = Some [] /\
  quizContentEl_innerHTML (page empty_quiz_world) = "" /\
  submitAnswerBtn_hidden (page empty_quiz_world) = false /\
  isLoading (page empty_quiz_world) = false /\
  log empty_quiz_world =
    (log lesson_world
       ++ [Fetch "/generate_quiz" (userSelections (page lesson_world)) AfterQuiz; Uncaught])%list.
Proof.
  repeat split.
Qed.

(** The same on every page: an empty quiz is stored and shown, and the
    handler ends in a [TypeError]. *)
Lemma startQuizBtn_resume_empty (s : State) (status : Z) (lh : option string) :
  ok status = true ->
  let o := startQuizBtn_resume (HttpResponse status (Parsed (Some (mkPayload lh (Some []))))) s in
  completion o = TypeError /\
  quizData (final o) = Some [] /\
  lessonSection_hidden (final o) = true /\
  quizSection_hidden (final o) = false.
Proof.
  intros Hok. cbv zeta.
  rewrite (startQuizBtn_resume_questions s status lh [] Hok).
  set (s0 := set_hidden quizSection false
               (set_hidden lessonSection true
                  (set_quizData (Some []) (set_hidden loadingSpinner true s)))).
  assert (Hq0 : quizData s0 = Some []) by (destruct s; reflexivity).
  rewrite (displayQuestion_undefined s0 [] Hq0)
    by (destruct (Z_lt_le_dec (currentQuestionIndex s0) 0); [left; assumption | right; simpl; lia]).
  cbn [completion final]. unfold s0. destruct s; repeat split.
Qed.

(** ** Validation and failed generations *)

(** C8.  With an empty topic the lesson button alerts and returns: no
    request leaves, the page is the same in every field, so the screen
    stays where it was, Setup included, whatever the subject and the
    level are. *)
Theorem empty_topic_rejected :
  forall (P : string -> string) (N : spec_float -> string) (w : World),
    topicEl_value (page w) = "" ->
    exists w',
      fire P N Click_generateBtn w = Some w' /\
      page w' = page w /\
      screen (page w') = screen (page w) /\
      in_flight w' = in_flight w /\
      timers w' = timers w /\
      log w' = (log w ++ [Alert "Please enter a topic."])%list /\
      awaited (effects (generateBtn_click (page w))) = [].
Proof.
  intros P N w Htopic. eexists. split; [reflexivity|].
  unfold deliver. rewrite (generateBtn_click_empty (page w) Htopic).
  cbn. rewrite app_nil_r, Nat.add_0_r. repeat split.
Qed.

Lemma empty_topic_rejected_witness :
  exists w',
    fire plain no_exponent Click_generateBtn
      (world_after [Edit_subject "Math"; Edit_level "Beginner"]) = Some w' /\
    page w' = page (world_after [Edit_subject "Math"; Edit_level "Beginner"]) /\
    screen (page w') = screen (page (world_after [Edit_subject "Math"; Edit_level "Beginner"])) /\
    in_flight w' = in_flight (world_after [Edit_subject "Math"; Edit_level "Beginner"]) /\
    timers w' = timers (world_after [Edit_subject "Math"; Edit_level "Beginner"]) /\
    log w' = (log (world_after [Edit_subject "Math"; Edit_level "Beginner"])
                ++ [Alert "Please enter a topic."])%list /\
    awaited (effects (generateBtn_click
                        (page (world_after [Edit_subject "Math"; Edit_level "Beginner"])))) = [].
Proof.
  apply (empty_topic_rejected plain no_exponent
           (world_after [Edit_subject "Math"; Edit_level "Beginner"])).
  reflexivity.
Defined.

Lemma resume_generation_error (P : string -> string) (k : Continuation) (r : Response)
    (s : State) :
  generation_error k r = true ->
  exists es,
    resume P k r s = mkOutcome (set_hidden loadingSpinner true s) es (Normal tt) /\
    awaited es = [] /\ timeouts es = O.
Proof.
  intros Herr. unfold generation_error in Herr.
  destruct (transport_failed r) eqn:Hfail.
  - destruct k; eexists;
      (split; [unfold resume, generateBtn_resume, startQuizBtn_resume, bind;
               rewrite (fetchAPI_return_failed _ r s Hfail); reflexivity
              | split; reflexivity]).
  - simpl in Herr. destruct r as [|status body]; [discriminate|].
    destruct body as [|data]; [discriminate|].
    simpl in Hfail. rewrite orb_false_r in Hfail. apply negb_false_iff in Hfail.
    exists []. split; [|split; reflexivity].
    destruct k; unfold resume, generateBtn_resume, startQuizBtn_resume, bind;
      rewrite (fetchAPI_return_parsed _ status data s Hfail);
      cbn [completion final effects];
      destruct data as [d|]; try reflexivity.
    + destruct (lesson_html d); [discriminate | reflexivity].
    + destruct (questions d); [discriminate | reflexivity].
Qed.

(** C9.  When a generation fails (the request is rejected, the status
    is not a success, the body does not parse, or it lacks the property
    the handler reads), settling it leaves every section as it was, so
    the screen is the one the request was made from; the spinner ends
    hidden; and the quiz, the index, the score and the lesson on the
    page are untouched.  Issuing either request touches none of them
    either. *)
Theorem generation_error_commits_nothing :
  forall (P : string -> string) (N : spec_float -> string) (w : World)
         (i : nat) (k : Continuation) (r : Response),
    nth_error (in_flight w) i = Some k ->
    generation_error k r = true ->
    exists w',
      fire P N (Settle i r) w = Some w' /\
      sections (page w') = sections (page w) /\
      screen (page w') = screen (page w) /\
      isLoading (page w') = false /\
      committed (page w') = committed (page w) /\
      timers w' = timers w /\
      in_flight w' = without i (in_flight w) /\
      sections (final (generateBtn_click (page w))) = sections (page w) /\
      committed (final (generateBtn_click (page w))) = committed (page w) /\
      sections (final (startQuizBtn_click (page w))) = sections (page w) /\
      committed (final (startQuizBtn_click (page w))) = committed (page w).
Proof.
  intros P N w i k r Hk Herr.
  destruct (resume_generation_error P k r (page w) Herr) as (es & Hres & Haw & Hto).
  eexists. split; [apply (fire_settle P N w i k r Hk)|].
  erewrite deliver_outcome by (cbn [page]; exact Hres).
  cbn [page timers in_flight log]. rewrite Haw, Hto, app_nil_r, Nat.add_0_r.
  assert (Hclick : sections (final (generateBtn_click (page w))) = sections (page w) /\
                   committed (final (generateBtn_click (page w))) = committed (page w)).
  { destruct (String.eqb_spec (topicEl_value (page w)) "") as [He|Hne].
    - rewrite (generateBtn_click_empty _ He). split; reflexivity.
    - rewrite (generateBtn_click_outcome _ Hne). destruct (page w); split; reflexivity. }
  destruct Hclick as (Hc1 & Hc2).
  rewrite startQuizBtn_click_outcome.
  destruct (page w); repeat split; assumption.
Qed.

Lemma generation_error_commits_nothing_witness :
  exists w',
    fire plain no_exponent (Settle 0 (HttpResponse 500 Malformed))
      (world_after (to_lesson ++ [Click_startQuizBtn])) = Some w' /\
    screen (page w') = Some Lesson /\
    isLoading (page w') = false /\
    committed (page w') = committed (page lesson_world).
Proof.
  destruct (generation_error_commits_nothing plain no_exponent
              (world_after (to_lesson ++ [Click_startQuizBtn])) 0 AfterQuiz
              (HttpResponse 500 Malformed) eq_refl eq_refl)
    as (w' & Hfire & _ & Hscr & Hload & Hcom & _).
  exists w'. split; [exact Hfire|]. split; [exact Hscr|]. split; [exact Hload | exact Hcom].
Defined.

(** ** Start of the session *)

(** C10, as the code has it.  The script ends by calling [resetUI] on
    the freshly declared variables and registers the same [resetUI] as
    the restart handler: the first page and every page after a restart
    are results of the one function, and they agree on every field that
    function assigns. *)
Theorem boot_and_restart_share_resetUI :
  forall (P : string -> string) (N : spec_float -> string) (document : State) (w : World),
    page (boot document) = final (resetUI (declarations document)) /\
    exists w',
      fire P N Click_restartBtn w = Some w' /\
      page w' = final (resetUI (page w)) /\
      reset_fields (page w') = reset_fields (page (boot document)) /\
      reset_fields (page w') =
        (false, true, true, true, true, "", "", None, 0, 0).
Proof.
  intros P N document w. split; [reflexivity|].
  eexists. split; [reflexivity|]. split; [reflexivity|].
  unfold boot, deliver, restartBtn_click. cbn [page].
  rewrite !resetUI_outcome. split; reflexivity.
Qed.

(** C10 as stated fails: the page after a restart is not the page the
    session started with once a lesson was requested, for the fields
    [resetUI] does not assign keep what the session put there. *)
Lemma restarted_page_differs_from_first :
  run plain no_exponent to_lesson (boot bare_document) = Some lesson_world /\
  fire plain no_exponent Click_restartBtn lesson_world = Some restarted_lesson_world /\
  userSelections (page (boot bare_document)) = None /\
  userSelections (page restarted_lesson_world)
    = Some (mkSelections "Math" "Fractions" "Beginner") /\
  page restarted_lesson_world <> page (boot bare_document).
Proof.
  repeat split. discriminate.
Qed.

(** ** A whole session *)

(** X8.  From whatever document was loaded, the ordinary way to a quiz
    (the form filled in with a non-empty topic, a lesson response with
    a non-empty lesson, the quiz button, a quiz response with at least
    one question) ends on the Quiz screen with that quiz stored, the
    index and the score at zero, the answer button shown, no advance
    pending and no request in flight: the state the run theorems start
    from. *)
Lemma session_starts_quiz (P : string -> string) (N : spec_float -> string)
    (document : State) (subj top lev html : string) (qs : list Question) :
  top <> "" -> html <> "" -> qs <> [] ->
  exists w,
    run P N (session_to_quiz subj top lev html qs) (boot document) = Some w /\
    quiz_started qs w /\
    in_flight w = [].
Proof.
  intros Htop Hhtml Hqs. destruct qs as [|q rest]; [contradiction|].
  destruct document. unfold session_to_quiz, boot, run, fire, deliver.
  cbn -[truthy questionHTML]. rewrite (truthy_nonempty top Htop).
  cbn -[truthy questionHTML]. rewrite (truthy_nonempty html Hhtml).
  cbn -[truthy questionHTML].
  eexists. split; [reflexivity|]. repeat split.
Qed.

(** Three right answers to three questions: the Result screen after the
    third advance, entered once, with score 3 and 100.0 percent. *)
Example three_of_three :
  run plain no_exponent all_right sample_start =
    Some (world_after (to_quiz sample_quiz ++ all_right)) /\
  result_entries plain no_exponent all_right sample_start = 1%nat /\
  screen (page (world_after (to_quiz sample_quiz ++ all_right))) = Some Result /\
  score (page (world_after (to_quiz sample_quiz ++ all_right))) = 3 /\
  resultTextEl_innerHTML (page (world_after (to_quiz sample_quiz ++ all_right))) =
    "You scored 3 out of 3 (100.0%).<br>Excellent! You have a strong grasp of this topic.".
Proof. vm_compute. repeat split. Qed.

(** Equality of answers is that of the strings: a trailing blank or
    another case is a wrong answer. *)
Example near_misses_do_not_score :
  score (final (submitAnswerBtn_click (Some "1 ") (page sample_start))) = 0 /\
  score (final (submitAnswerBtn_click (Some "1") (page sample_start))) = 1 /\
  score (final (submitAnswerBtn_click (Some "PARIS")
                  (set_quizData (Some [mkQuestion "Capital of France?" ["Paris"; "Rome"]
                                         "Paris" "It is Paris."])
                     (page sample_start)))) = 0.
Proof. repeat split. Qed.

(** ** What the functions leave alone *)

Lemma variables_eq (s s' : State) :
  variables s' = variables s ->
  quizData s' = quizData s /\
  currentQuestionIndex s' = currentQuestionIndex s /\
  score s' = score s /\
  userSelections s' = userSelections s.
Proof.
  unfold variables. intros H. injection H as Hq Hi Hsc Hu. auto.
Qed.

Ltac by_fields s :=
  destruct s; cbn [quizData] in *; subst; repeat split; try reflexivity.

Lemma displayQuestion_null (s : State) :
  quizData s = None ->
  displayQuestion s =
  mkOutcome (set_hidden submitAnswerBtn false (set_feedbackSectionEl_innerHTML "" s))
            [] TypeError.
Proof.
  intros Hqs. destruct s; simpl in *; subst. reflexivity.
Qed.

(** [displayQuestion] writes the feedback, the answer button and, when
    it gets that far, the quiz content; nothing else. *)
Lemma displayQuestion_footprint (s : State) :
  let o := displayQuestion s in
  effects o = [] /\
  variables (final o) = variables s /\
  sections (final o) = sections s /\
  loadingSpinner_hidden (final o) = loadingSpinner_hidden s /\
  submitAnswerBtn_hidden (final o) = false.
Proof.
  cbv zeta. destruct (quizData s) as [qs|] eqn:Hqs.
  - destruct (Z_lt_le_dec (currentQuestionIndex s) 0) as [Hneg|Hpos].
    + rewrite (displayQuestion_undefined s qs Hqs) by (left; exact Hneg).
      by_fields s.
    + destruct (Z_lt_le_dec (currentQuestionIndex s) (Z.of_nat (List.length qs))) as [Hin|Hout].
      * destruct (in_range_question qs (currentQuestionIndex s)) as [q Hq]; [lia|].
        rewrite (displayQuestion_outcome s qs q Hqs Hpos Hq). by_fields s.
      * rewrite (displayQuestion_undefined s qs Hqs) by (right; exact Hout).
        by_fields s.
  - rewrite (displayQuestion_null s Hqs). by_fields s.
Qed.

Lemma showResults_footprint (N : spec_float -> string) (s : State) :
  let o := showResults N s in
  effects o = [] /\
  variables (final o) = variables s /\
  loadingSpinner_hidden (final o) = loadingSpinner_hidden s /\
  submitAnswerBtn_hidden (final o) = submitAnswerBtn_hidden s.
Proof.
  cbv zeta. destruct (quizData s) as [qs|] eqn:Hqs.
  - rewrite (showResults_outcome N s qs Hqs). by_fields s.
  - destruct s; simpl in *; subst. repeat split.
Qed.

(** The advance callback always counts the index up by one, on every
    path, and touches no other variable. *)
Lemma advance_footprint (N : spec_float -> string) (s : State) :
  let o := advance N s in
  effects o = [] /\
  variables (final o) =
    (quizData s, currentQuestionIndex s + 1, score s, userSelections s) /\
  loadingSpinner_hidden (final o) = loadingSpinner_hidden s.
Proof.
  cbv zeta. destruct (quizData s) as [qs|] eqn:Hqs.
  - destruct (Z_lt_le_dec (currentQuestionIndex s + 1) (Z.of_nat (List.length qs)))
      as [Hnext|Hlast].
    + assert (Hstep : advance N s =
                      displayQuestion (set_currentQuestionIndex (currentQuestionIndex s + 1) s)).
      { destruct s; simpl in *; subst.
        unfold advance, bind, read, write, quizData_length; simpl.
        destruct (Z.ltb_spec (currentQuestionIndex0 + 1) (Z.of_nat (List.length qs))); [|lia].
        destruct (displayQuestion _) as [f e c]; simpl. destruct c; reflexivity. }
      rewrite Hstep.
      destruct (displayQuestion_footprint
                  (set_currentQuestionIndex (currentQuestionIndex s + 1) s))
        as (He & Hv & _ & Hl & _).
      rewrite He, Hv, Hl. by_fields s.
    + rewrite (advance_outcome_last N s qs Hqs Hlast).
      destruct (showResults_footprint N
                  (set_currentQuestionIndex (currentQuestionIndex s + 1) s))
        as (He & Hv & Hl & _).
      rewrite He, Hv, Hl. by_fields s.
  - rewrite (advance_null N s Hqs). by_fields s.
Qed.

(** A submission either throws before it has written anything, or it
    finds the question on display and runs to its end. *)
Lemma submitAnswerBtn_click_cases (s : State) (a : string) :
  submitAnswerBtn_click (Some a) s = mkOutcome s [] TypeError \/
  exists qs q,
    quizData s = Some qs /\
    0 <= currentQuestionIndex s /\
    nth_error qs (Z.to_nat (currentQuestionIndex s)) = Some q /\
    submitAnswerBtn_click (Some a) s =
    mkOutcome
      (set_hidden submitAnswerBtn true
         (if String.eqb a (answer q)
          then set_feedbackSectionEl_innerHTML (correct_feedback ++ explanation_feedback q)
                 (set_score (score s + 1) s)
          else set_feedbackSectionEl_innerHTML (incorrect_feedback q ++ explanation_feedback q) s))
      [SetTimeout 2500] (Normal tt).
Proof.
  destruct (quizData s) as [qs|] eqn:Hqs.
  - destruct (Z_lt_le_dec (currentQuestionIndex s) 0) as [Hneg|Hpos].
    + left. unfold submitAnswerBtn_click, bind.
      rewrite (current_question_undefined s qs Hqs) by (left; exact Hneg). reflexivity.
    + destruct (Z_lt_le_dec (currentQuestionIndex s) (Z.of_nat (List.length qs))) as [Hin|Hout].
      * destruct (in_range_question qs (currentQuestionIndex s)) as [q Hq]; [lia|].
        right. exists qs, q. repeat split; try assumption.
        apply (submitAnswerBtn_click_outcome s qs q a Hqs Hpos Hq).
      * left. unfold submitAnswerBtn_click, bind.
        rewrite (current_question_undefined s qs Hqs) by (right; exact Hout). reflexivity.
  - left. unfold submitAnswerBtn_click, bind.
    rewrite (current_question_null s Hqs). reflexivity.
Qed.

(** A response is either a failed generation or carries what its
    handler reads. *)
Lemma response_cases (k : Continuation) (r : Response) :
  generation_error k r = true \/
  exists status d,
    r = HttpResponse status (Parsed (Some d)) /\ ok status = true /\
    match k with
    | AfterLesson _ => exists html, lesson_html d = Some html
    | AfterQuiz => exists qs, questions d = Some qs
    end.
Proof.
  destruct (generation_error k r) eqn:Herr; [left; reflexivity | right].
  unfold generation_error in Herr. apply orb_false_iff in Herr. destruct Herr as (Hfail & Hfield).
  destruct r as [|status body]; [discriminate|].
  destruct body as [|[d|]]; simpl in Hfail; try discriminate;
    rewrite ?orb_true_r, ?orb_false_r in Hfail; try discriminate.
  apply negb_false_iff in Hfail.
  exists status, d. split; [reflexivity|]. split; [assumption|].
  destruct k.
  - destruct (lesson_html d); [eauto | discriminate].
  - destruct (questions d); [eauto | discriminate].
Qed.

(** Whatever the response, the handler that resumes hides the spinner,
    starts no timer and no request, and leaves the index, the score and
    the selections alone. *)
Lemma resume_footprint (P : string -> string) (k : Continuation) (r : Response) (s : State) :
  let o := resume P k r s in
  timeouts (effects o) = O /\
  awaited (effects o) = [] /\
  currentQuestionIndex (final o) = currentQuestionIndex s /\
  score (final o) = score s /\
  userSelections (final o) = userSelections s /\
  loadingSpinner_hidden (final o) = true.
Proof.
  cbv zeta. destruct (response_cases k r) as [Herr | (status & d & -> & Hok & Hfield)].
  - destruct (resume_generation_error P k r s Herr) as (es & -> & Haw & Hto).
    cbn [final effects]. rewrite Haw, Hto. by_fields s.
  - destruct k as [topic|].
    + destruct Hfield as (html & Hhtml).
      unfold resume, generateBtn_resume, bind.
      rewrite (fetchAPI_return_parsed _ status _ s Hok). cbn [completion final effects].
      rewrite Hhtml. destruct (truthy html); by_fields s.
    + destruct Hfield as (qs & Hqs). destruct d as [lh qs']. simpl in Hqs. subst qs'.
      unfold resume. rewrite (startQuizBtn_resume_questions s status lh qs Hok).
      match goal with
      | |- context [displayQuestion ?s0] =>
          pose proof (displayQuestion_footprint s0) as Hfoot
      end.
      cbv zeta in Hfoot. destruct Hfoot as (He & Hv & _ & Hl & _).
      apply variables_eq in Hv. destruct Hv as (_ & Hi & Hsc & Hu).
      rewrite He, Hi, Hsc, Hu, Hl. by_fields s.
Qed.

(** ** The counters on every reachable page *)

(** What one turn of the loop does to the index, the score and the
    number of pending advances, event by event. *)
Lemma fire_counters (P : string -> string) (N : spec_float -> string)
    (e : Event) (w w' : World) :
  fire P N e w = Some w' ->
  let i := currentQuestionIndex (page w) in
  let sc := score (page w) in
  let i' := currentQuestionIndex (page w') in
  let sc' := score (page w') in
  match e with
  | Click_restartBtn => i' = 0 /\ sc' = 0 /\ timers w' = timers w
  | Delay_elapses => i' = i + 1 /\ sc' = sc /\ timers w = S (timers w')
  | Click_submitAnswerBtn c =>
      i' = i /\
      ((sc' = sc /\ page w' = page w /\ timers w' = timers w) \/
       (exists a, c = Some a /\ (sc' = sc \/ sc' = sc + 1) /\
                  timers w' = S (timers w) /\
                  submitAnswerBtn_hidden (page w') = true))
  | _ => i' = i /\ sc' = sc /\ timers w' = timers w
  end.
Proof.
  intros Hfire. cbv zeta. destruct e.
  - injection Hfire as <-. destruct w as [s t fl lg]. destruct s. repeat split; apply Nat.add_0_r.
  - injection Hfire as <-. destruct w as [s t fl lg]. destruct s. repeat split; apply Nat.add_0_r.
  - injection Hfire as <-. destruct w as [s t fl lg]. destruct s. repeat split; apply Nat.add_0_r.
  - injection Hfire as <-. unfold deliver. cbn [page timers].
    destruct (String.eqb_spec (topicEl_value (page w)) "") as [He|Hne].
    + rewrite (generateBtn_click_empty _ He). cbn. rewrite Nat.add_0_r. repeat split.
    + rewrite (generateBtn_click_outcome _ Hne). cbn. rewrite Nat.add_0_r.
      destruct (page w); repeat split.
  - unfold fire in Hfire. destruct (startQuizBtn_hidden (page w)); [discriminate|].
    injection Hfire as <-. unfold deliver. cbn [page timers].
    rewrite startQuizBtn_click_outcome. cbn. rewrite Nat.add_0_r.
    destruct (page w); repeat split.
  - rewrite fire_submit in Hfire. destruct (submitAnswerBtn_hidden (page w)); [discriminate|].
    injection Hfire as <-. unfold deliver. cbn [page timers].
    destruct checked as [a|].
    + destruct (submitAnswerBtn_click_cases (page w) a) as [Hthrow | (qs & q & _ & _ & _ & Hrun)].
      * rewrite Hthrow. cbn. rewrite Nat.add_0_r. split; [reflexivity|]. left. repeat split.
      * rewrite Hrun. cbn [final effects timeouts].
        split; [destruct (String.eqb a (answer q)); destruct (page w); reflexivity|].
        right. exists a. split; [reflexivity|].
        split; [destruct (String.eqb a (answer q)); destruct (page w); simpl; auto|].
        split; [lia|].
        destruct (String.eqb a (answer q)); destruct (page w); reflexivity.
    + cbn. rewrite Nat.add_0_r. split; [reflexivity|]. left. repeat split.
  - injection Hfire as <-. unfold deliver, restartBtn_click. cbn [page timers].
    rewrite resetUI_outcome. cbn. rewrite Nat.add_0_r. repeat split.
  - unfold fire in Hfire. destruct (timers w) as [|n] eqn:Ht; [discriminate|].
    injection Hfire as <-. unfold deliver. cbn [page timers].
    pose proof (advance_footprint N (page w)) as Hfoot. cbv zeta in Hfoot.
    destruct Hfoot as (He & Hv & _). rewrite He.
    unfold variables in Hv. injection Hv as _ Hi Hsc _.
    cbn [timeouts]. rewrite Nat.add_0_r. repeat split; assumption.
  - unfold fire in Hfire. destruct (nth_error (in_flight w) i) as [k|]; [|discriminate].
    injection Hfire as <-. unfold deliver. cbn [page timers].
    pose proof (resume_footprint P k r (page w)) as Hfoot. cbv zeta in Hfoot.
    destruct Hfoot as (Hto & _ & Hi & Hsc & _). rewrite Hto, Nat.add_0_r.
    repeat split; assumption.
Qed.

Lemma boot_counters_sound (document : State) : counters_sound (boot document).
Proof.
  unfold counters_sound, boot, deliver. cbn [page timers].
  rewrite resetUI_outcome. cbn. lia.
Qed.

Lemma fire_counters_sound (P : string -> string) (N : spec_float -> string)
    (e : Event) (w w' : World) :
  fire P N e w = Some w' -> counters_sound w -> counters_sound w'.
Proof.
  intros Hfire (Hi & Hsc & Hle). pose proof (fire_counters P N e w w' Hfire) as H.
  cbv zeta in H. unfold counters_sound.
  destruct e;
    try (destruct H as (-> & -> & ->); repeat split; assumption).
  - destruct H as (-> & [(-> & _ & ->) | (a & _ & Hs & -> & _)]).
    + repeat split; assumption.
    + destruct Hs as [-> | ->]; repeat split; lia.
  - destruct H as (-> & -> & ->). repeat split; lia.
  - destruct H as (-> & -> & Ht). rewrite Ht in Hle. repeat split; lia.
Qed.

(** X1.  On every page the loop reaches from a freshly loaded
    document, by whatever clicks, edits, expirations and responses,
    the index and the score are not negative and the score is at most
    the index plus the number of pending advances; so whenever no
    advance is pending the score is at most the index. *)
Theorem counters_sound_on_every_run :
  forall (P : string -> string) (N : spec_float -> string)
         (document : State) (evs : list Event) (w : World),
    run P N evs (boot document) = Some w ->
    counters_sound w /\
    (timers w = O -> score (page w) <= currentQuestionIndex (page w)).
Proof.
  intros P N document evs w Hrun.
  assert (Hsound : counters_sound w).
  { revert Hrun. generalize (boot_counters_sound document).
    generalize (boot document) as w0. induction evs as [|e rest IH]; intros w0 Hw0 Hrun.
    - simpl in Hrun. injection Hrun as <-. assumption.
    - simpl in Hrun. destruct (fire P N e w0) as [w1|] eqn:Hfire; [|discriminate].
      apply (IH w1); [|assumption].
      apply (fire_counters_sound P N e w0 w1 Hfire Hw0). }
  split; [assumption|].
  intros Ht. destruct Hsound as (_ & _ & Hle). rewrite Ht in Hle. simpl in Hle. lia.
Qed.

Lemma counters_sound_on_every_run_witness :
  counters_sound stale_world /\
  (timers stale_world = O ->
   score (page stale_world) <= currentQuestionIndex (page stale_world)).
Proof.
  apply (counters_sound_on_every_run plain no_exponent bare_document
           (answer_pending ++ [Click_restartBtn; Delay_elapses])%list).
  reflexivity.
Defined.

(** X2.  Between restarts the counters only go up, one at a time: an
    event other than a restart leaves the index and the score where
    they were or one higher; only the end of a delay moves the index;
    and only an accepted answer moves the score, in which case the
    answer button is hidden and one more advance is pending. *)
Theorem counters_move_one_at_a_time :
  forall (P : string -> string) (N : spec_float -> string)
         (e : Event) (w w' : World),
    fire P N e w = Some w' ->
    e <> Click_restartBtn ->
    currentQuestionIndex (page w) <= currentQuestionIndex (page w')
      <= currentQuestionIndex (page w) + 1 /\
    score (page w) <= score (page w') <= score (page w) + 1 /\
    (currentQuestionIndex (page w') <> currentQuestionIndex (page w) -> e = Delay_elapses) /\
    (score (page w') <> score (page w) ->
     exists a,
       e = Click_submitAnswerBtn (Some a) /\
       submitAnswerBtn_hidden (page w') = true /\
       timers w' = S (timers w)).
Proof.
  intros P N e w w' Hfire Hne. pose proof (fire_counters P N e w w' Hfire) as H.
  cbv zeta in H.
  destruct e; try contradiction;
    try (destruct H as (-> & -> & _); repeat split; (lia || (intros; exfalso; auto))).
  - destruct H as (-> & [(-> & _ & _) | (a & -> & Hs & Ht & Hb)]).
    + repeat split; (lia || (intros; exfalso; auto)).
    + split; [lia|]. split; [destruct Hs as [-> | ->]; lia|].
      split; [intros; exfalso; auto|].
      intros _. exists a. repeat split; assumption.
Qed.

Lemma counters_move_one_at_a_time_witness :
  score (page sample_start)
    <= score (page (deliver (submitAnswerBtn_click (Some "1")) sample_start))
    <= score (page sample_start) + 1 /\
  (score (page (deliver (submitAnswerBtn_click (Some "1")) sample_start))
     <> score (page sample_start) ->
   exists a,
     Click_submitAnswerBtn (Some "1") = Click_submitAnswerBtn (Some a) /\
     submitAnswerBtn_hidden (page (deliver (submitAnswerBtn_click (Some "1")) sample_start))
       = true /\
     timers (deliver (submitAnswerBtn_click (Some "1")) sample_start)
       = S (timers sample_start)).
Proof.
  pose proof (counters_move_one_at_a_time plain no_exponent
                (Click_submitAnswerBtn (Some "1")) sample_start
                (deliver (submitAnswerBtn_click (Some "1")) sample_start)
                eq_refl ltac:(discriminate)) as H.
  split; [exact (proj1 (proj2 H)) | exact (proj2 (proj2 (proj2 H)))].
Defined.

(** ** Selections and requests *)

Lemma fire_selections (P : string -> string) (N : spec_float -> string)
    (e : Event) (w w' : World) :
  fire P N e w = Some w' ->
  e <> Click_generateBtn ->
  userSelections (page w') = userSelections (page w).
Proof.
  intros Hfire Hne. destruct e; try contradiction.
  - injection Hfire as <-. destruct w as [s t fl lg]. destruct s. reflexivity.
  - injection Hfire as <-. destruct w as [s t fl lg]. destruct s. reflexivity.
  - injection Hfire as <-. destruct w as [s t fl lg]. destruct s. reflexivity.
  - unfold fire in Hfire. destruct (startQuizBtn_hidden (page w)); [discriminate|].
    injection Hfire as <-. unfold deliver. cbn [page].
    rewrite startQuizBtn_click_outcome. destruct (page w); reflexivity.
  - rewrite fire_submit in Hfire. destruct (submitAnswerBtn_hidden (page w)); [discriminate|].
    injection Hfire as <-. unfold deliver. cbn [page].
    destruct checked as [a|]; [|reflexivity].
    destruct (submitAnswerBtn_click_cases (page w) a) as [-> | (qs & q & _ & _ & _ & ->)].
    + reflexivity.
    + destruct (String.eqb a (answer q)); destruct (page w); reflexivity.
  - injection Hfire as <-. unfold deliver, restartBtn_click. cbn [page].
    rewrite resetUI_outcome. reflexivity.
  - unfold fire in Hfire. destruct (timers w) as [|n]; [discriminate|].
    injection Hfire as <-. unfold deliver. cbn [page].
    pose proof (advance_footprint N (page w)) as Hfoot. cbv zeta in Hfoot.
    destruct Hfoot as (_ & Hv & _). unfold variables in Hv. injection Hv as _ _ _ Hu.
    exact Hu.
  - unfold fire in Hfire. destruct (nth_error (in_flight w) i) as [k|]; [|discriminate].
    injection Hfire as <-. unfold deliver. cbn [page].
    pose proof (resume_footprint P k r (page w)) as Hfoot. cbv zeta in Hfoot.
    destruct Hfoot as (_ & _ & _ & _ & Hu & _). exact Hu.
Qed.

Lemma run_selections (P : string -> string) (N : spec_float -> string) (evs : list Event) :
  forall w w' : World,
    Forall (fun e => e <> Click_generateBtn) evs ->
    run P N evs w = Some w' ->
    userSelections (page w') = userSelections (page w).
Proof.
  induction evs as [|e rest IH]; intros w w' Hall Hrun.
  - simpl in Hrun. injection Hrun as <-. reflexivity.
  - inversion Hall as [|e' rest' He Hrest]; subst.
    simpl in Hrun. destruct (fire P N e w) as [w1|] eqn:Hfire; [|discriminate].
    rewrite (IH w1 w' Hrest Hrun). apply (fire_selections P N e w w1 Hfire He).
Qed.

(** X3.  The quiz request carries the selections of the last lesson
    request, not the form as it stands: after a click on the lesson
    button with a non-empty topic, whatever happens next short of
    another such click (edits of the form, restarts, responses,
    answers), a click on the quiz button posts to [/generate_quiz] the
    subject, topic and level the form held at the lesson click. *)
Theorem quiz_request_carries_lesson_selections :
  forall (P : string -> string) (N : spec_float -> string)
         (w : World) (evs : list Event) (w' : World),
    topicEl_value (page w) <> "" ->
    Forall (fun e => e <> Click_generateBtn) evs ->
    run P N (Click_generateBtn :: evs) w = Some w' ->
    startQuizBtn_hidden (page w') = false ->
    exists w'',
      fire P N Click_startQuizBtn w' = Some w'' /\
      log w'' =
        (log w' ++
         [Fetch "/generate_quiz"
            (Some (mkSelections (subjectEl_value (page w)) (topicEl_value (page w))
                     (levelEl_value (page w))))
            AfterQuiz])%list /\
      in_flight w'' = (in_flight w' ++ [AfterQuiz])%list.
Proof.
  intros P N w evs w' Htopic Hall Hrun Hbtn.
  cbn [run fire] in Hrun.
  pose proof (run_selections P N evs _ _ Hall Hrun) as Hsel.
  unfold deliver in Hsel. cbn [page] in Hsel.
  rewrite (generateBtn_click_outcome _ Htopic) in Hsel. cbn [final] in Hsel.
  assert (Hsel' : userSelections (page w') =
                  Some (mkSelections (subjectEl_value (page w)) (topicEl_value (page w))
                          (levelEl_value (page w)))).
  { rewrite Hsel. destruct (page w); reflexivity. }
  unfold fire. rewrite Hbtn. eexists. split; [reflexivity|].
  unfold deliver. rewrite startQuizBtn_click_outcome. cbn. rewrite Hsel'. split; reflexivity.
Qed.

Lemma quiz_request_carries_lesson_selections_witness :
  exists w'',
    fire plain no_exponent Click_startQuizBtn
      (world_after [Edit_subject "Math"; Edit_topic "Fractions"; Edit_level "Beginner";
                    Click_generateBtn; Edit_topic "Decimals"; Settle 0 lesson_ok;
                    Edit_level "Advanced"]) = Some w'' /\
    log w'' =
      (log (world_after [Edit_subject "Math"; Edit_topic "Fractions"; Edit_level "Beginner";
                         Click_generateBtn; Edit_topic "Decimals"; Settle 0 lesson_ok;
                         Edit_level "Advanced"]) ++
       [Fetch "/generate_quiz" (Some (mkSelections "Math" "Fractions" "Beginner")) AfterQuiz])%list /\
    in_flight w'' =
      (in_flight (world_after [Edit_subject "Math"; Edit_topic "Fractions";
                               Edit_level "Beginner"; Click_generateBtn;
                               Edit_topic "Decimals"; Settle 0 lesson_ok;
                               Edit_level "Advanced"]) ++ [AfterQuiz])%list.
Proof.
  apply (quiz_request_carries_lesson_selections plain no_exponent
           (world_after [Edit_subject "Math"; Edit_topic "Fractions"; Edit_level "Beginner"])
           [Edit_topic "Decimals"; Settle 0 lesson_ok; Edit_level "Advanced"]).
  - discriminate.
  - repeat constructor; discriminate.
  - vm_compute. reflexivity.
  - vm_compute. reflexivity.
Defined.

Lemma without_length {A : Type} (i : nat) (l : list A) (x : A) :
  nth_error l i = Some x -> S (List.length (without i l)) = List.length l.
Proof.
  intros Hx. assert (Hi : (i < List.length l)%nat) by (apply nth_error_Some; congruence).
  unfold without. rewrite length_app, length_firstn, length_skipn. lia.
Qed.

(** X4.  The spinner keeps no count of the requests in flight: when
    any request settles, with any response, the spinner ends hidden,
    even on the path where rendering throws, while every other request
    stays in flight. *)
Theorem settling_hides_the_spinner :
  forall (P : string -> string) (N : spec_float -> string)
         (w : World) (i : nat) (k : Continuation) (r : Response),
    nth_error (in_flight w) i = Some k ->
    exists w',
      fire P N (Settle i r) w = Some w' /\
      isLoading (page w') = false /\
      in_flight w' = without i (in_flight w) /\
      S (List.length (in_flight w')) = List.length (in_flight w) /\
      timers w' = timers w.
Proof.
  intros P N w i k r Hk. eexists. split; [apply (fire_settle P N w i k r Hk)|].
  unfold deliver. cbn [page timers in_flight].
  pose proof (resume_footprint P k r (page w)) as Hfoot. cbv zeta in Hfoot.
  destruct Hfoot as (Hto & Haw & _ & _ & _ & Hl).
  unfold isLoading. rewrite Hl, Haw, Hto, app_nil_r, Nat.add_0_r.
  repeat split. apply (without_length i (in_flight w) k Hk).
Qed.

Lemma settling_hides_the_spinner_witness :
  exists w',
    fire plain no_exponent (Settle 0 lesson_ok)
      (world_after [Edit_topic "Fractions"; Click_generateBtn; Click_generateBtn]) = Some w' /\
    isLoading (page w') = false /\
    in_flight w' = [AfterLesson "Fractions"] /\
    S (List.length (in_flight w')) = 2%nat /\
    timers w' = O.
Proof.
  apply (settling_hides_the_spinner plain no_exponent
           (world_after [Edit_topic "Fractions"; Click_generateBtn; Click_generateBtn])
           0 (AfterLesson "Fractions") lesson_ok).
  reflexivity.
Defined.

(** ** The lesson *)

Lemma lesson_of_not_failed (r : Response) (html : string) :
  lesson_of r = Some html -> transport_failed r = false.
Proof.
  destruct r as [|status [|[d|]]]; simpl; try discriminate.
  destruct (ok status); [reflexivity | discriminate].
Qed.

Lemma generateBtn_resume_lesson (P : string -> string) (topic : string) (status : Z)
    (html : string) (qs : option (list Question)) (s : State) :
  ok status = true ->
  html <> "" ->
  generateBtn_resume P topic (HttpResponse status (Parsed (Some (mkPayload (Some html) qs)))) s =
  mkOutcome
    (set_hidden startQuizBtn false
       (set_hidden lessonSection false
          (set_hidden setupSection true
             (set_lessonContentEl_innerHTML (P html)
                (set_lessonTitleEl_textContent ("Lesson: " ++ topic)
                   (set_hidden loadingSpinner true s))))))
    [] (Normal tt).
Proof.
  intros Hok Hhtml. unfold generateBtn_resume, bind.
  rewrite (fetchAPI_return_parsed _ status _ s Hok). cbn [completion final effects lesson_html].
  rewrite (truthy_nonempty html Hhtml). destruct s; reflexivity.
Qed.

(** X5.  What a lesson response does, for every response and every
    page.  When the status is a success and the body carries a
    non-empty [lesson_html], the title becomes "Lesson: " followed by
    the topic captured at the click, the content is the parsed lesson,
    the setup section is hidden and the lesson section and the quiz
    button are shown.  Otherwise only the spinner changes, an empty
    [lesson_html] counting as none.  The handler never throws, and the
    generic failure notice is raised exactly when the request failed in
    transport: a well-formed body without a lesson is dropped without a
    word. *)
Theorem lesson_response_outcome :
  forall (P : string -> string) (topic : string) (r : Response) (s : State),
    let o := generateBtn_resume P topic r s in
    completion o = Normal tt /\
    final o =
      match lesson_of r with
      | Some html =>
          set_hidden startQuizBtn false
            (set_hidden lessonSection false
               (set_hidden setupSection true
                  (set_lessonContentEl_innerHTML (P html)
                     (set_lessonTitleEl_textContent ("Lesson: " ++ topic)
                        (set_hidden loadingSpinner true s)))))
      | None => set_hidden loadingSpinner true s
      end /\
    (In failure_notice (effects o) <-> transport_failed r = true) /\
    (transport_failed r = false -> effects o = []).
Proof.
  intros P topic r s. cbv zeta. unfold generateBtn_resume, bind.
  destruct (transport_failed r) eqn:Hfail.
  - rewrite (fetchAPI_return_failed _ r s Hfail). cbn [completion final effects].
    assert (Hnone : lesson_of r = None).
    { destruct (lesson_of r) as [html|] eqn:Hl; [|reflexivity].
      rewrite (lesson_of_not_failed r html Hl) in Hfail. discriminate. }
    rewrite Hnone. split; [reflexivity|]. split; [reflexivity|].
    split; [|discriminate].
    split; [reflexivity|]. intros _. simpl. right. left. reflexivity.
  - destruct r as [|status body]; [discriminate|].
    destruct body as [|data]; [simpl in Hfail; rewrite orb_true_r in Hfail; discriminate|].
    simpl in Hfail. rewrite orb_false_r in Hfail. apply negb_false_iff in Hfail.
    rewrite (fetchAPI_return_parsed _ status data s Hfail). cbn [completion final effects].
    unfold lesson_of. rewrite Hfail.
    destruct data as [d|]; [destruct (lesson_html d) as [html|]; [destruct (truthy html)|]|];
      (split; [reflexivity|]; split; [reflexivity|];
       split; [split; [intros []|discriminate] | reflexivity]).
Qed.

(** X6.  A restart does not call off a lesson request: when the answer
    to a request made before the restart arrives afterwards with a
    lesson, the page leaves the Setup screen for the Lesson screen,
    titled with the topic of that request, while the topic input stays
    cleared and the counters stay reset. *)
Theorem late_lesson_after_restart :
  forall (P : string -> string) (N : spec_float -> string)
         (w : World) (status : Z) (html : string) (qs : option (list Question)),
    topicEl_value (page w) <> "" ->
    ok status = true ->
    html <> "" ->
    exists w',
      run P N [Click_generateBtn; Click_restartBtn;
               Settle (List.length (in_flight w))
                 (HttpResponse status (Parsed (Some (mkPayload (Some html) qs))))] w
        = Some w' /\
      screen (page w') = Some Lesson /\
      lessonTitleEl_textContent (page w') = ("Lesson: " ++ topicEl_value (page w))%string /\
      lessonContentEl_innerHTML (page w') = P html /\
      startQuizBtn_hidden (page w') = false /\
      topicEl_value (page w') = "" /\
      quizData (page w') = None /\
      currentQuestionIndex (page w') = 0 /\
      score (page w') = 0 /\
      isLoading (page w') = false.
Proof.
  intros P N w status html qs Htopic Hok Hhtml.
  set (r := HttpResponse status (Parsed (Some (mkPayload (Some html) qs)))).
  set (k := AfterLesson (topicEl_value (page w))).
  set (w1 := deliver generateBtn_click w).
  assert (H1 : page w1 =
               set_hidden loadingSpinner false
                 (set_userSelections
                    (Some (mkSelections (subjectEl_value (page w)) (topicEl_value (page w))
                             (levelEl_value (page w)))) (page w)) /\
               in_flight w1 = (in_flight w ++ [k])%list).
  { unfold w1, deliver. cbn [page in_flight].
    rewrite (generateBtn_click_outcome _ Htopic). split; reflexivity. }
  destruct H1 as (Hp1 & Hf1).
  set (w2 := deliver restartBtn_click w1).
  assert (H2 : page w2 = final (resetUI (page w1)) /\ in_flight w2 = in_flight w1).
  { unfold w2, deliver, restartBtn_click. cbn [page in_flight].
    rewrite resetUI_outcome. cbn [final effects awaited]. rewrite app_nil_r.
    split; reflexivity. }
  destruct H2 as (Hp2 & Hf2).
  assert (Hk : nth_error (in_flight w2) (List.length (in_flight w)) = Some k).
  { rewrite Hf2, Hf1, nth_error_app2 by lia. rewrite Nat.sub_diag. reflexivity. }
  eexists. split.
  { rewrite run_cons. change (fire P N Click_generateBtn w) with (Some w1). cbv beta iota.
    rewrite run_cons. change (fire P N Click_restartBtn w1) with (Some w2). cbv beta iota.
    rewrite run_cons, (fire_settle P N w2 _ k r Hk). reflexivity. }
  unfold deliver. cbn [page]. unfold k, resume.
  unfold r. rewrite (generateBtn_resume_lesson P _ status html qs (page w2) Hok Hhtml).
  cbn [final]. rewrite Hp2, Hp1, resetUI_outcome. cbn [final].
  destruct (page w); repeat split.
Qed.

Lemma late_lesson_after_restart_witness :
  exists w',
    run plain no_exponent
      [Click_generateBtn; Click_restartBtn; Settle 0 lesson_ok]
      (world_after [Edit_subject "Math"; Edit_topic "Fractions"; Edit_level "Beginner"])
      = Some w' /\
    screen (page w') = Some Lesson /\
    lessonTitleEl_textContent (page w') = "Lesson: Fractions" /\
    lessonContentEl_innerHTML (page w') = "# Fractions" /\
    startQuizBtn_hidden (page w') = false /\
    topicEl_value (page w') = "" /\
    quizData (page w') = None /\
    currentQuestionIndex (page w') = 0 /\
    score (page w') = 0 /\
    isLoading (page w') = false.
Proof.
  apply (late_lesson_after_restart plain no_exponent
           (world_after [Edit_subject "Math"; Edit_topic "Fractions"; Edit_level "Beginner"])
           200 "# Fractions" None).
  - discriminate.
  - reflexivity.
  - discriminate.
Defined.

(** ** Grading a run of answers *)

Lemma grade_no_answers (qs : list Question) : grade qs [] = 0.
Proof. destruct qs; reflexivity. Qed.

Lemma skipn_nth_error {A : Type} (l : list A) :
  forall (i : nat) (x : A), nth_error l i = Some x -> skipn i l = x :: skipn (S i) l.
Proof.
  induction l as [|y l IH]; intros i x Hx.
  - destruct i; discriminate.
  - destruct i as [|i].
    + simpl in Hx. injection Hx as ->. reflexivity.
    + simpl in Hx. apply (IH i x Hx).
Qed.

Lemma feedback_timeout_last_result (P : string -> string) (N : spec_float -> string)
    (qs : list Question) (w w2 : World) :
  in_phase qs Feedback w ->
  Z.of_nat (List.length qs) <= currentQuestionIndex (page w) + 1 ->
  fire P N Delay_elapses w = Some w2 ->
  let n := Z.of_nat (List.length qs) in
  let p := toFixed1 (percentage_value (score (page w)) n) in
  resultTextEl_innerHTML (page w2) = (result_summary N (score (page w)) n p ++ tier_text p)%string.
Proof.
  destruct w as [s t fl lg]. unfold in_phase; cbn [page timers in_flight log].
  intros (Hqs & Hi & Hsc & Hbtn & Ht & Hscr & Hlt & Hle) Hlast Hfire.
  subst t. rewrite (fire_timeout _ _ _ O) in Hfire by reflexivity.
  erewrite deliver_outcome in Hfire.
  2:{ cbn [page].
      rewrite (advance_outcome_last N s qs Hqs Hlast).
      apply (showResults_outcome N _ qs); destruct s; simpl in *; assumption. }
  injection Hfire as <-. cbn [page]. rewrite resultText_set. destruct s; reflexivity.
Qed.

(** From a page that awaits an answer, a list of answers no longer than
    the questions left is worked off one question at a time. *)
Lemma answers_run (P : string -> string) (N : spec_float -> string) (qs : list Question) :
  forall (answers : list string) (w : World),
    in_phase qs Answering w ->
    currentQuestionIndex (page w) + Z.of_nat (List.length answers)
      <= Z.of_nat (List.length qs) ->
    exists w',
      run P N (answer_events answers) w = Some w' /\
      currentQuestionIndex (page w')
        = currentQuestionIndex (page w) + Z.of_nat (List.length answers) /\
      score (page w')
        = score (page w) + grade (skipn (Z.to_nat (currentQuestionIndex (page w))) qs) answers /\
      ((currentQuestionIndex (page w') < Z.of_nat (List.length qs) /\
        in_phase qs Answering w') \/
       (currentQuestionIndex (page w') = Z.of_nat (List.length qs) /\
        in_phase qs Finished w' /\
        let n := Z.of_nat (List.length qs) in
        let p := toFixed1 (percentage_value (score (page w')) n) in
        resultTextEl_innerHTML (page w')
          = (result_summary N (score (page w')) n p ++ tier_text p)%string)).
Proof.
  induction answers as [|a rest IH]; intros w Hph Hlen.
  - exists w. split; [reflexivity|]. rewrite grade_no_answers.
    split; [simpl; lia|]. split; [lia|]. left. split; [|assumption].
    destruct Hph as (_ & _ & _ & _ & _ & _ & Hlt & _). exact Hlt.
  - change (answer_events (a :: rest))
      with (Click_submitAnswerBtn (Some a) :: Delay_elapses :: answer_events rest).
    assert (Hi0 : 0 <= currentQuestionIndex (page w)) by (destruct Hph as (_ & Hi & _); exact Hi).
    destruct (answering_submit P N qs w a Hph)
      as (q & w1 & Hq & Hf1 & Hph1 & Hi1 & Hsc1 & _).
    rewrite run_cons, Hf1, run_cons.
    rewrite (skipn_nth_error qs _ q Hq). cbn [grade].
    simpl List.length in Hlen.
    destruct (Z_lt_le_dec (currentQuestionIndex (page w1) + 1) (Z.of_nat (List.length qs)))
      as [Hnext|Hlast].
    + destruct (feedback_timeout_next P N qs w1 Hph1 Hnext)
        as (q' & w2 & _ & Hf2 & Hph2 & Hi2 & Hsc2 & _).
      rewrite Hf2.
      destruct (IH w2 Hph2) as (w' & Hrun & Hi' & Hsc' & Hend); [rewrite Hi2, Hi1; lia|].
      exists w'. split; [assumption|].
      split; [rewrite Hi', Hi2, Hi1; simpl List.length; lia|].
      split; [|exact Hend].
      rewrite Hsc', Hi2, Hsc2, Hi1, Hsc1.
      replace (Z.to_nat (currentQuestionIndex (page w) + 1))
        with (S (Z.to_nat (currentQuestionIndex (page w)))) by lia.
      lia.
    + destruct (feedback_timeout_last P N qs w1 Hph1 Hlast)
        as (w2 & Hf2 & Hph2 & Hi2 & Hsc2 & _).
      rewrite Hf2. destruct rest as [|b rest]; [|simpl List.length in Hlen; lia].
      exists w2. split; [reflexivity|].
      split; [rewrite Hi2, Hi1; simpl; lia|].
      split; [rewrite grade_no_answers, Hsc2, Hsc1; lia|].
      right.
      assert (Hn : currentQuestionIndex (page w2) = Z.of_nat (List.length qs))
        by (destruct Hph2 as (_ & _ & _ & _ & _ & _ & Hn & _); exact Hn).
      split; [exact Hn|]. split; [assumption|].
      rewrite Hsc2. apply (feedback_timeout_last_result P N qs w1 w2 Hph1 Hlast Hf2).
Qed.

(** X7.  A quiz is graded by counting matches.  From the start of a
    quiz, one answer per question for the first questions, each
    followed by the end of its delay, is always accepted; afterwards
    the index is the number of answers given and the score is the
    number of them equal to the [answer] of their question.  While
    questions are left the page awaits the next answer on the Quiz
    screen; when all are answered it is on the Result screen and reports
    that score out of the number of questions. *)
Theorem answers_are_graded :
  forall (P : string -> string) (N : spec_float -> string)
         (qs : list Question) (w : World) (answers : list string),
    quiz_started qs w ->
    (List.length answers <= List.length qs)%nat ->
    qs <> [] ->
    let n := Z.of_nat (List.length qs) in
    let g := grade qs answers in
    exists w',
      run P N (answer_events answers) w = Some w' /\
      currentQuestionIndex (page w') = Z.of_nat (List.length answers) /\
      score (page w') = g /\
      0 <= g <= Z.of_nat (List.length answers) /\
      timers w' = O /\
      if Z.of_nat (List.length answers) <? n
      then screen (page w') = Some Quiz /\ submitAnswerBtn_hidden (page w') = false
      else screen (page w') = Some Result /\
           submitAnswerBtn_hidden (page w') = true /\
           resultTextEl_innerHTML (page w')
             = (result_summary N g n (toFixed1 (percentage_value g n))
                  ++ tier_text (toFixed1 (percentage_value g n)))%string.
Proof.
  intros P N qs w answers Hstart Hlen Hne n g.
  pose proof (quiz_started_answering qs w Hne Hstart) as Hph.
  destruct Hstart as (_ & Hi0 & Hsc0 & _).
  destruct (answers_run P N qs answers w Hph) as (w' & Hrun & Hi & Hsc & Hend);
    [rewrite Hi0; lia|].
  rewrite Hi0 in Hi, Hsc. rewrite Hsc0 in Hsc. simpl in Hi, Hsc. fold g in Hsc.
  exists w'. split; [assumption|]. split; [assumption|]. split; [assumption|].
  assert (Hbound : 0 <= g <= Z.of_nat (List.length answers) /\ timers w' = O).
  { destruct Hend as [(_ & Hph') | (_ & Hph' & _)];
      destruct Hph' as (_ & _ & Hs0 & _ & Ht & _ & Hn & Hle);
      rewrite Hsc in *; rewrite Hi in *; split; (lia || assumption). }
  destruct Hbound as (Hg & Ht). split; [assumption|]. split; [assumption|].
  destruct Hend as [(Hlt & Hph') | (Hn & Hph' & Htext)].
  - rewrite Hi in Hlt. fold n in Hlt.
    destruct (Z.ltb_spec (Z.of_nat (List.length answers)) n); [|lia].
    destruct Hph' as (_ & _ & _ & Hb & _ & Hscr & _). split; assumption.
  - rewrite Hi in Hn. fold n in Hn.
    destruct (Z.ltb_spec (Z.of_nat (List.length answers)) n); [lia|].
    destruct Hph' as (_ & _ & _ & Hb & _ & Hscr & _).
    split; [assumption|]. split; [assumption|].
    cbv zeta in Htext. rewrite Hsc in Htext. exact Htext.
Qed.

Lemma answers_are_graded_witness :
  exists w',
    run plain no_exponent (answer_events ["1"; "1/8"; "1"]) sample_start = Some w' /\
    currentQuestionIndex (page w') = 3 /\
    score (page w') = 2 /\
    0 <= 2 <= 3 /\
    timers w' = O /\
    screen (page w') = Some Result /\
    submitAnswerBtn_hidden (page w') = true /\
    resultTextEl_innerHTML (page w')
      = "You scored 2 out of 3 (66.7%).<br>Good job! Review the lesson for any tricky points.".
Proof.
  apply (answers_are_graded plain no_exponent sample_quiz sample_start ["1"; "1/8"; "1"]).
  - repeat split.
  - simpl. lia.
  - discriminate.
Defined.

Lemma session_starts_quiz_witness :
  exists w,
    run plain no_exponent
      (session_to_quiz "Math" "Fractions" "Beginner" "# Fractions" sample_quiz)
      (boot bare_document) = Some w /\
    quiz_started sample_quiz w /\
    in_flight w = [].
Proof.
  apply (session_starts_quiz plain no_exponent bare_document
           "Math" "Fractions" "Beginner" "# Fractions" sample_quiz);
    discriminate.
Defined.

(** ** The percentage against exact arithmetic *)

(** X9.  For every quiz of at most 79 questions and every score it can
    end with, the percentage shown is the exact quotient rounded half
    up to one decimal, and the tier is what the exact quotient says:
    excellent from four fifths of the questions, good from three
    fifths, needs review below.  The double arithmetic first shows at
    80 questions, where 23 right answers are exactly 28.75 percent and
    28.7 is shown. *)
Theorem percentage_exact_for_small_quizzes :
  forall sc n : Z,
    1 <= n <= 79 ->
    0 <= sc <= n ->
    let p := toFixed1 (percentage_value sc n) in
    p = FixedDecimal false (exact_tenths sc n) /\
    (2 * exact_tenths sc n - 1) * n <= 2000 * sc < (2 * exact_tenths sc n + 1) * n /\
    (tier_text p = excellent_text <-> 4 * n <= 5 * sc) /\
    (tier_text p = good_text <-> 3 * n <= 5 * sc < 4 * n) /\
    (tier_text p = review_text <-> 5 * sc < 3 * n) /\
    toFixed1 (percentage_value 23 80) = FixedDecimal false 287 /\
    exact_tenths 23 80 = 288.
Proof.
  intros sc n Hn Hsc. cbv zeta.
  pose proof (tenths_agree_sound sc n (tenths_agree_small sc n Hn Hsc)) as Hp.
  rewrite Hp.
  split; [reflexivity|].
  clear Hp. unfold exact_tenths.
  set (t := (2000 * sc + n) / (2 * n)).
  assert (Ht : (2 * t - 1) * n <= 2000 * sc < (2 * t + 1) * n).
  { pose proof (Z.mul_div_le (2000 * sc + n) (2 * n) ltac:(lia)).
    pose proof (Z.mul_succ_div_gt (2000 * sc + n) (2 * n) ltac:(lia)).
    fold t in H, H0. lia. }
  split; [exact Ht|].
  destruct tier_texts_distinct as (Heg & Her & Hgr).
  assert (Htier : tier_text (FixedDecimal false t)
                  = if 800 <=? t then excellent_text
                    else if 600 <=? t then good_text else review_text) by reflexivity.
  rewrite Htier.
  assert (H800 : 800 <= t <-> 4 * n <= 5 * sc).
  { split; intros H.
    - assert (1599 * n <= 2000 * sc); [|lia].
      assert ((2 * 800 - 1) * n <= (2 * t - 1) * n) by (apply Z.mul_le_mono_nonneg_r; lia).
      lia.
    - unfold t. apply Z.div_le_lower_bound; lia. }
  assert (H600 : 600 <= t <-> 3 * n <= 5 * sc).
  { split; intros H.
    - assert (1199 * n <= 2000 * sc); [|lia].
      assert ((2 * 600 - 1) * n <= (2 * t - 1) * n) by (apply Z.mul_le_mono_nonneg_r; lia).
      lia.
    - unfold t. apply Z.div_le_lower_bound; lia. }
  split; [|split; [|split; [|split; vm_compute; reflexivity]]].
  - destruct (Z.leb_spec 800 t) as [H8|H8].
    + split; intros; [apply H800; exact H8 | reflexivity].
    + destruct (Z.leb_spec 600 t); split; intros He;
        try (exfalso; congruence); exfalso; apply H800 in He; lia.
  - destruct (Z.leb_spec 800 t) as [H8|H8].
    + split; intros He; [exfalso; congruence | exfalso; apply H800 in H8; lia].
    + destruct (Z.leb_spec 600 t) as [H6|H6].
      * split; intros; [split; [apply H600; exact H6 | ] | reflexivity].
        destruct (Z_lt_le_dec (5 * sc) (4 * n)) as [Hlt|Hge]; [exact Hlt|].
        apply H800 in Hge. lia.
      * split; intros He; [exfalso; congruence|].
        destruct He as (He & _). apply H600 in He. lia.
  - destruct (Z.leb_spec 800 t) as [H8|H8].
    + split; intros He; [exfalso; congruence | exfalso; apply H800 in H8; lia].
    + destruct (Z.leb_spec 600 t) as [H6|H6].
      * split; intros He; [exfalso; congruence | exfalso; apply H600 in H6; lia].
      * split; intros; [|reflexivity].
        destruct (Z_lt_le_dec (5 * sc) (3 * n)) as [Hlt|Hge]; [exact Hlt|].
        apply H600 in Hge. lia.
Qed.

Lemma percentage_exact_for_small_quizzes_witness :
  toFixed1 (percentage_value 2 3) = FixedDecimal false (exact_tenths 2 3) /\
  (2 * exact_tenths 2 3 - 1) * 3 <= 2000 * 2 < (2 * exact_tenths 2 3 + 1) * 3 /\
  (tier_text (toFixed1 (percentage_value 2 3)) = good_text <-> 3 * 3 <= 5 * 2 < 4 * 3).
Proof.
  pose proof (percentage_exact_for_small_quizzes 2 3 ltac:(lia) ltac:(lia)) as H.
  cbv zeta in H.
  split; [exact (proj1 H)|].
  split; [exact (proj1 (proj2 H))|].
  exact (proj1 (proj2 (proj2 (proj2 H)))).
Defined.

(** ** The quiz response and the way to the Result screen *)

Lemma questions_of_cases (r : Response) :
  match questions_of r with
  | Some qs =>
      exists status lh,
        r = HttpResponse status (Parsed (Some (mkPayload lh (Some qs)))) /\ ok status = true
  | None => generation_error AfterQuiz r = true
  end.
Proof.
  destruct r as [|status [|[[lh qs]|]]]; try reflexivity.
  - unfold questions_of, generation_error, transport_failed.
    destruct (ok status); reflexivity.
  - unfold questions_of, generation_error, transport_failed. cbn [questions].
    destruct (ok status) eqn:Hok.
    + destruct qs as [qs|]; [exists status, lh; split; [reflexivity | exact Hok] | reflexivity].
    + reflexivity.
  - unfold questions_of, generation_error, transport_failed.
    destruct (ok status); reflexivity.
Qed.

(** X10.  What a quiz response does, for every response and every
    page.  When the status is a success and the body carries
    [questions], of whatever length, they are stored, the Lesson section
    is hidden, the Quiz section and the answer button are shown and the
    feedback is cleared, with the index and the score as they were; the
    handler then throws exactly when the index names no question of the
    new quiz, and the content on display is then the old one.
    Otherwise only the spinner changes and nothing is thrown. *)
Theorem quiz_response_outcome :
  forall (r : Response) (s : State),
    let o := startQuizBtn_resume r s in
    let s' := final o in
    match questions_of r with
    | Some qs =>
        quizData s' = Some qs /\
        lessonSection_hidden s' = true /\ quizSection_hidden s' = false /\
        submitAnswerBtn_hidden s' = false /\
        feedbackSectionEl_innerHTML s' = "" /\
        currentQuestionIndex s' = currentQuestionIndex s /\ score s' = score s /\
        isLoading s' = false /\
        effects o = [] /\
        (completion o = TypeError <-> ~ has_question qs (currentQuestionIndex s)) /\
        (completion o = TypeError -> quizContentEl_innerHTML s' = quizContentEl_innerHTML s)
    | None =>
        s' = set_hidden loadingSpinner true s /\ completion o = Normal tt
    end.
Proof.
  intros r s. cbv zeta. pose proof (questions_of_cases r) as Hcases.
  destruct (questions_of r) as [qs|].
  - destruct Hcases as (status & lh & -> & Hok).
    rewrite (startQuizBtn_resume_questions s status lh qs Hok).
    set (s0 := set_hidden quizSection false
                 (set_hidden lessonSection true
                    (set_quizData (Some qs) (set_hidden loadingSpinner true s)))).
    assert (Hq0 : quizData s0 = Some qs) by (destruct s; reflexivity).
    assert (Hi0 : currentQuestionIndex s0 = currentQuestionIndex s) by (destruct s; reflexivity).
    unfold has_question.
    destruct (Z_lt_le_dec (currentQuestionIndex s) 0) as [Hneg|Hpos].
    + rewrite (displayQuestion_undefined s0 qs Hq0) by (left; lia).
      destruct s; repeat split; try reflexivity; intros; try discriminate;
        try (simpl in *; lia).
    + destruct (Z_lt_le_dec (currentQuestionIndex s) (Z.of_nat (List.length qs))) as [Hin|Hout].
      * destruct (in_range_question qs (currentQuestionIndex s0)) as [q Hq]; [lia|].
        rewrite (displayQuestion_outcome s0 qs q Hq0) by (lia || assumption).
        destruct s; repeat split; try reflexivity; intros; try discriminate;
          try (simpl in *; lia);
          try (exfalso; match goal with H : ~ _ |- _ => apply H end; simpl in *; lia).
      * rewrite (displayQuestion_undefined s0 qs Hq0) by (right; lia).
        destruct s; repeat split; try reflexivity; intros; try discriminate;
          try (simpl in *; lia).
  - destruct (resume_generation_error (fun x => x) AfterQuiz r s Hcases) as (es & Hres & _).
    unfold resume in Hres. rewrite Hres. split; reflexivity.
Qed.

Lemma sections_eq (s s' : State) :
  sections s' = sections s ->
  setupSection_hidden s' = setupSection_hidden s /\
  lessonSection_hidden s' = lessonSection_hidden s /\
  quizSection_hidden s' = quizSection_hidden s /\
  resultSection_hidden s' = resultSection_hidden s.
Proof.
  unfold sections. intros H. injection H as H1 H2 H3 H4. auto.
Qed.

Lemma on_result_sections (s s' : State) :
  sections s' = sections s -> on_result s' = on_result s.
Proof.
  intros H. apply sections_eq in H. destruct H as (H1 & H2 & H3 & H4).
  unfold on_result, screen. rewrite H1, H2, H3, H4. reflexivity.
Qed.

(** A resumed handler leaves the sections alone or shows the Lesson or
    the Quiz section. *)
Lemma resume_sections (P : string -> string) (k : Continuation) (r : Response) (s : State) :
  let s' := final (resume P k r s) in
  sections s' = sections s \/ lessonSection_hidden s' = false \/ quizSection_hidden s' = false.
Proof.
  cbv zeta. destruct (response_cases k r) as [Herr | (status & d & -> & Hok & Hfield)].
  - destruct (resume_generation_error P k r s Herr) as (es & -> & _).
    left. destruct s; reflexivity.
  - destruct k as [topic|].
    + destruct Hfield as (html & Hhtml). destruct d as [lh qs]. simpl in Hhtml. subst lh.
      destruct (String.eqb_spec html "") as [->|Hne].
      * left. unfold resume, generateBtn_resume, bind.
        rewrite (fetchAPI_return_parsed _ status _ s Hok). destruct s; reflexivity.
      * right. left. unfold resume.
        rewrite (generateBtn_resume_lesson P topic status html qs s Hok Hne).
        destruct s; reflexivity.
    + destruct Hfield as (qs & Hqs). destruct d as [lh qs']. simpl in Hqs. subst qs'.
      right. right. unfold resume. rewrite (startQuizBtn_resume_questions s status lh qs Hok).
      match goal with
      | |- context [displayQuestion ?s0] =>
          pose proof (displayQuestion_footprint s0) as Hfoot
      end.
      cbv zeta in Hfoot. destruct Hfoot as (_ & _ & Hsec & _).
      apply sections_eq in Hsec. destruct Hsec as (_ & _ & Hq & _). rewrite Hq.
      destruct s; reflexivity.
Qed.

Lemma on_result_needs_both (s : State) :
  on_result s = true -> lessonSection_hidden s = true /\ quizSection_hidden s = true /\
                        setupSection_hidden s = true.
Proof.
  unfold on_result, screen.
  destruct (setupSection_hidden s), (lessonSection_hidden s), (quizSection_hidden s),
    (resultSection_hidden s); intros H; try discriminate; repeat split.
Qed.

(** X11.  The Result screen is entered only at the end of a delay, and
    only when the index then reaches the end of the stored quiz: no
    click, edit or response brings a page that is not on the Result
    screen onto it. *)
Theorem result_only_after_last_delay :
  forall (P : string -> string) (N : spec_float -> string)
         (e : Event) (w w' : World),
    fire P N e w = Some w' ->
    on_result (page w) = false ->
    on_result (page w') = true ->
    e = Delay_elapses /\
    exists qs,
      quizData (page w) = Some qs /\
      Z.of_nat (List.length qs) <= currentQuestionIndex (page w) + 1 /\
      currentQuestionIndex (page w') = currentQuestionIndex (page w) + 1.
Proof.
  intros P N e w w' Hfire Hoff Hon.
  assert (Hsame : sections (page w') = sections (page w) -> False).
  { intros Hsec. rewrite (on_result_sections _ _ Hsec) in Hon. congruence. }
  destruct e.
  - exfalso. apply Hsame. injection Hfire as <-.
    destruct w as [s t fl lg]; destruct s; reflexivity.
  - exfalso. apply Hsame. injection Hfire as <-.
    destruct w as [s t fl lg]; destruct s; reflexivity.
  - exfalso. apply Hsame. injection Hfire as <-.
    destruct w as [s t fl lg]; destruct s; reflexivity.
  - exfalso. apply Hsame. injection Hfire as <-. unfold deliver. cbn [page].
    destruct (String.eqb_spec (topicEl_value (page w)) "") as [He|Hne].
    + rewrite (generateBtn_click_empty _ He). reflexivity.
    + rewrite (generateBtn_click_outcome _ Hne). destruct (page w); reflexivity.
  - exfalso. apply Hsame. unfold fire in Hfire.
    destruct (startQuizBtn_hidden (page w)); [discriminate|].
    injection Hfire as <-. unfold deliver. cbn [page].
    rewrite startQuizBtn_click_outcome. destruct (page w); reflexivity.
  - exfalso. apply Hsame. rewrite fire_submit in Hfire.
    destruct (submitAnswerBtn_hidden (page w)); [discriminate|].
    injection Hfire as <-. unfold deliver. cbn [page].
    destruct checked as [a|]; [|reflexivity].
    destruct (submitAnswerBtn_click_cases (page w) a) as [-> | (qs & q & _ & _ & _ & ->)].
    + reflexivity.
    + destruct (String.eqb a (answer q)); destruct (page w); reflexivity.
  - exfalso. injection Hfire as <-. unfold deliver, restartBtn_click in Hon. cbn [page] in Hon.
    rewrite resetUI_outcome in Hon. discriminate Hon.
  - split; [reflexivity|]. unfold fire in Hfire.
    destruct (timers w) as [|n]; [discriminate|].
    injection Hfire as <-. unfold deliver in *. cbn [page] in *.
    destruct (quizData (page w)) as [qs|] eqn:Hqs.
    + exists qs. split; [reflexivity|].
      pose proof (advance_footprint N (page w)) as Hfoot. cbv zeta in Hfoot.
      destruct Hfoot as (_ & Hv & _). apply (f_equal (fun v => snd (fst (fst v)))) in Hv.
      cbn [variables fst snd] in Hv. split; [|exact Hv].
      destruct (Z_lt_le_dec (currentQuestionIndex (page w) + 1) (Z.of_nat (List.length qs)))
        as [Hnext|Hlast]; [|exact Hlast].
      exfalso. apply Hsame.
      assert (Hstep : advance N (page w) =
                      displayQuestion
                        (set_currentQuestionIndex (currentQuestionIndex (page w) + 1) (page w))).
      { destruct (page w); simpl in *; subst.
        unfold advance, bind, read, write, quizData_length; simpl.
        destruct (Z.ltb_spec (currentQuestionIndex0 + 1) (Z.of_nat (List.length qs))); [|lia].
        destruct (displayQuestion _) as [f e c]; simpl. destruct c; reflexivity. }
      rewrite Hstep.
      match goal with
      | |- context [displayQuestion ?s0] =>
          pose proof (displayQuestion_footprint s0) as Hfoot
      end.
      cbv zeta in Hfoot. destruct Hfoot as (_ & _ & Hsec & _). rewrite Hsec.
      destruct (page w); reflexivity.
    + exfalso. apply Hsame. rewrite (advance_null N (page w) Hqs).
      destruct (page w); reflexivity.
  - exfalso. unfold fire in Hfire.
    destruct (nth_error (in_flight w) i) as [k|]; [|discriminate].
    injection Hfire as <-. unfold deliver in *. cbn [page] in *.
    pose proof (resume_sections P k r (page w)) as Hsec. cbv zeta in Hsec.
    destruct (on_result_needs_both _ Hon) as (Hl & Hq & _).
    destruct Hsec as [Hsec | [Hsec | Hsec]]; [apply (Hsame Hsec) | congruence | congruence].
Qed.

Lemma result_only_after_last_delay_witness :
  Delay_elapses = Delay_elapses /\
  exists qs,
    quizData (page pending_world) = Some qs /\
    Z.of_nat (List.length qs) <= currentQuestionIndex (page pending_world) + 1 /\
    currentQuestionIndex (page (world_after (answer_pending ++ [Delay_elapses])))
      = currentQuestionIndex (page pending_world) + 1.
Proof.
  apply (result_only_after_last_delay plain no_exponent Delay_elapses pending_world
           (world_after (answer_pending ++ [Delay_elapses]))).
  - reflexivity.
  - reflexivity.
  - reflexivity.
Defined.
